(** * jduimage: a shallow embedding of the [Image] wrapper and its checks

    The package wraps OpenCV ([cv2]) and NumPy behind one mutable handle,
    [Image], assembled from a data holder ([ImageStructure]) and seven
    mixins.  Every method validates its arguments, calls the library and
    rebinds [self.data].

    The embedding follows the source file by file:
    - Python values: exceptions, numbers ([int] as [Z], [float] as IEEE
      binary64), strings, list indexing and slicing;
    - NumPy arrays as nested lists with an explicit shape;
    - the vision library as an oracle whose calls are logged;
    - an error/state monad over a store of array objects, so that two
      handles may reference the same array;
    - the methods of [_imageStructure.py], [__init__.py] and the mixins. *)

From Stdlib Require Import ZArith Floats Lia Ascii String.
From stdpp Require Import base option list strings pretty.

Set Warnings "-register-all".

Local Open Scope Z_scope.

(** ** Python exceptions *)

Inductive exn_class :=
| ValueError | TypeError | IndexError | AttributeError
| ZeroDivisionError | OverflowError | OSError | MemoryError | LibraryError.

(** [Raised c msg] is a [raise c(msg)] statement of the package itself: these
    are its validation checks.  [Native c what] is an exception that comes
    from the interpreter, a builtin or the inside of a library call;
    [LibraryError] stands for whatever a failing [cv2] or [numpy] function
    raises. *)
Inductive exn :=
| Raised (c : exn_class) (msg : string)
| Native (c : exn_class) (what : string).

Inductive result (A : Type) :=
| Ok (a : A)
| Err (e : exn).
Arguments Ok {A} a.
Arguments Err {A} e.

(** What a builtin or a NumPy function yields: a value, or an exception of
    the interpreter or of the library (never one of the package's own
    [raise] statements). *)
Inductive outcome (A : Type) :=
| Done (a : A)
| Fail (c : exn_class) (what : string).
Arguments Done {A} a.
Arguments Fail {A} c what.

Definition rbind {A B} (r : outcome A) (k : A -> outcome B) : outcome B :=
  match r with
  | Done a => k a
  | Fail c what => Fail c what
  end.

(** ** Python numbers *)

Module Py.

(** A Python number: an unbounded [int] or a binary64 [float]. *)
Inductive num :=
| NInt (z : Z)
| NFloat (f : float).

(** [float(z)]: round to nearest even, [OverflowError] beyond the range. *)
Definition float_of_int (z : Z) : outcome float :=
  let f := SF2Prim (binary_normalize prec emax z 0 false) in
  if PrimFloat.is_infinity f
  then Fail OverflowError "int too large to convert to float"
  else Done f.

(** [int(f)]: truncation towards zero. *)
Definition int_of_float (f : float) : outcome Z :=
  match Prim2SF f with
  | S754_nan => Fail ValueError "cannot convert float NaN to integer"
  | S754_infinity _ =>
      Fail OverflowError "cannot convert float infinity to integer"
  | S754_zero _ => Done 0
  | S754_finite s m e =>
      let a := if 0 <=? e then Z.pos m * 2 ^ e else Z.pos m / 2 ^ (- e) in
      Done (if s then - a else a)
  end.

Definition to_float (x : num) : outcome float :=
  match x with
  | NInt z => float_of_int z
  | NFloat f => Done f
  end.

Definition to_int (x : num) : outcome Z :=
  match x with
  | NInt z => Done z
  | NFloat f => int_of_float f
  end.

(** Comparison with a small integer literal ([x < 0], [x > 1], ...).
    Python compares an [int] with a [float] exactly; the literals used by
    the package (0 and 1) are exact floats. *)
Definition lit (k : Z) : float :=
  SF2Prim (binary_normalize prec emax k 0 false).

Definition ltb (x : num) (k : Z) : bool :=
  match x with
  | NInt z => z <? k
  | NFloat f => PrimFloat.ltb f (lit k)
  end.

Definition leb (x : num) (k : Z) : bool :=
  match x with
  | NInt z => z <=? k
  | NFloat f => PrimFloat.leb f (lit k)
  end.

Definition gtb (x : num) (k : Z) : bool :=
  match x with
  | NInt z => k <? z
  | NFloat f => PrimFloat.ltb (lit k) f
  end.

Definition arith (fz : Z -> Z -> Z) (ff : float -> float -> float)
    (x y : num) : outcome num :=
  match x, y with
  | NInt a, NInt b => Done (NInt (fz a b))
  | _, _ =>
      rbind (to_float x) (fun a =>
      rbind (to_float y) (fun b => Done (NFloat (ff a b))))
  end.

Definition add := arith Z.add PrimFloat.add.
Definition sub := arith Z.sub PrimFloat.sub.
Definition mul := arith Z.mul PrimFloat.mul.

(** [a / b] on two ints: the correctly rounded quotient.  The quotient is
    computed with at least 64 significant bits and a sticky bit. *)
Definition int_truediv (a b : Z) : outcome float :=
  if b =? 0 then Fail ZeroDivisionError "division by zero" else
  let neg := xorb (a <? 0) (b <? 0) in
  let a' := Z.abs a in
  let b' := Z.abs b in
  let k := Z.max 0 (64 + Z.log2_up b' - Z.log2 a') in
  let q := (a' * 2 ^ k) / b' in
  let r := (a' * 2 ^ k) mod b' in
  let m := 2 * q + (if r =? 0 then 0 else 1) in
  let f := SF2Prim (binary_normalize prec emax (if neg then - m else m)
                                     (- k - 1) neg) in
  if PrimFloat.is_infinity f
  then Fail OverflowError "integer division result too large for a float"
  else Done f.

Definition float_truediv (a b : float) : outcome float :=
  if PrimFloat.eqb b 0%float
  then Fail ZeroDivisionError "float division by zero"
  else Done (PrimFloat.div a b).

(** [x / y] *)
Definition truediv (x y : num) : outcome float :=
  match x, y with
  | NInt a, NInt b => int_truediv a b
  | _, _ =>
      rbind (to_float x) (fun a =>
      rbind (to_float y) (fun b => float_truediv a b))
  end.

(** [math.sqrt(x)] *)
Definition sqrt (x : num) : outcome float :=
  rbind (to_float x) (fun a =>
    if PrimFloat.ltb a 0%float
    then Fail ValueError "math domain error"
    else Done (PrimFloat.sqrt a)).

(** [l[i]] on a Python list or tuple. *)
Definition index {A} (l : list A) (i : Z) : outcome A :=
  let n := Z.of_nat (length l) in
  let j := if i <? 0 then i + n else i in
  if (0 <=? j) && (j <? n)
  then match l !! Z.to_nat j with
       | Some a => Done a
       | None => Fail IndexError "index out of range"
       end
  else Fail IndexError "index out of range".

(** Bounds of a slice [l[start:stop]]: negative bounds count from the end
    and everything is clamped to [0, len]. *)
Definition clamp (i : Z) (n : nat) : nat :=
  Z.to_nat (if i <? 0 then Z.max (i + Z.of_nat n) 0 else Z.min i (Z.of_nat n)).

Definition slice_bounds (start stop : option Z) (n : nat) : nat * nat :=
  (match start with Some i => clamp i n | None => 0%nat end,
   match stop with Some i => clamp i n | None => n end).

Definition slice_len (start stop : option Z) (n : nat) : nat :=
  let '(a, b) := slice_bounds start stop n in (b - a)%nat.

Definition slice {A} (start stop : option Z) (l : list A) : list A :=
  let '(a, b) := slice_bounds start stop (length l) in
  take (b - a) (drop a l).

(** [range(start, stop, step)] *)
Fixpoint range_up (fuel : nat) (a step : Z) : list Z :=
  match fuel with
  | O => []
  | S f => a :: range_up f (a + step) step
  end.

Definition range (start stop step : Z) : outcome (list Z) :=
  if step =? 0 then Fail ValueError "range() arg 3 must not be zero"
  else if 0 <? step
  then Done (range_up (Z.to_nat ((stop - start + step - 1) / step)) start step)
  else Done (range_up (Z.to_nat ((start - stop - step - 1) / (- step))) start step).

(** [s.split(sep)] for a one-character separator. *)
Fixpoint split (sep : ascii) (s : string) : list string :=
  match s with
  | EmptyString => [EmptyString]
  | String c r =>
      if Ascii.eqb c sep then EmptyString :: split sep r
      else match split sep r with
           | h :: t => String c h :: t
           | [] => [String c EmptyString]
           end
  end.

(** [s.replace(a, b)] for one-character [a] and [b]. *)
Fixpoint replace (a b : ascii) (s : string) : string :=
  match s with
  | EmptyString => EmptyString
  | String c r => String (if Ascii.eqb c a then b else c) (replace a b r)
  end.

(** [sep.join(l)] *)
Fixpoint join (sep : string) (l : list string) : string :=
  match l with
  | [] => EmptyString
  | [s] => s
  | s :: t => s ++ sep ++ join sep t
  end.

Definition str_in (s : string) (l : list string) : bool :=
  existsb (String.eqb s) l.

End Py.

(** ** NumPy arrays *)

(** The elements of an array, nested by axis.  An element is an integer
    sample; for a floating dtype it stands for the sample's bit pattern, which
    the package never inspects. *)
Inductive nd :=
| Item (v : Z)
| Nd (l : list nd).

Definition nd_items (x : nd) : list nd :=
  match x with
  | Nd l => l
  | Item _ => []
  end.

Record ndarray := mk_ndarray {
  arr_dtype : string;
  arr_shape : list nat;
  arr_buf : nd
}.

(** The elements agree with the declared shape. *)
Fixpoint has_shape (s : list nat) (x : nd) : bool :=
  match s, x with
  | [], Item _ => true
  | n :: s', Nd l => Nat.eqb (length l) n && forallb (has_shape s') l
  | _, _ => false
  end.

Definition wf_array (a : ndarray) : bool := has_shape (arr_shape a) (arr_buf a).

Fixpoint nd_full (v : Z) (s : list nat) : nd :=
  match s with
  | [] => Item v
  | n :: s' => Nd (replicate n (nd_full v s'))
  end.

Module np.

(** The size in bytes of one element. *)
Definition itemsize (dtype : string) : Z :=
  if String.eqb dtype "uint8" then 1
  else if String.eqb dtype "uint16" then 2
  else if String.eqb dtype "float32" then 4
  else 8.

(** The largest size of an array in bytes, that of a signed 64-bit
    integer. *)
Definition intp_max : Z := 2 ^ 63 - 1.

(** The size check of a new array.  The dimensions are multiplied into the
    number of bytes one after the other: a zero dimension is skipped, a
    negative one is refused, and so is a product beyond [intp_max]. *)
Fixpoint total_bytes (nbytes : Z) (sh : list Z) : outcome Z :=
  match sh with
  | [] => Done nbytes
  | d :: rest =>
      if d =? 0 then total_bytes nbytes rest
      else if d <? 0
      then Fail ValueError "negative dimensions are not allowed"
      else if intp_max <? nbytes * d
      then Fail ValueError "array is too big"
      else total_bytes (nbytes * d) rest
  end.

(** [np.zeros(shape, dtype)], as far as NumPy alone decides it; [shape] is
    a tuple of Python ints.  Whether the host has the memory is asked in
    [zeros] below. *)
Definition zeros (sh : list Z) (dtype : string) : outcome ndarray :=
  rbind (total_bytes (itemsize dtype) sh) (fun _ =>
    let s := map Z.to_nat sh in
    Done (mk_ndarray dtype s (nd_full 0 s))).

(** [a[r0:r1, c0:c1]]: basic slicing of the first two axes.  NumPy returns
    a view; the package never writes through one, so the view is
    represented by its value. *)
Definition slice2 (r0 r1 c0 c1 : option Z) (a : ndarray) : outcome ndarray :=
  match arr_shape a with
  | h :: w :: rest =>
      let rows := Py.slice r0 r1 (nd_items (arr_buf a)) in
      Done (mk_ndarray (arr_dtype a)
            (Py.slice_len r0 r1 h :: Py.slice_len c0 c1 w :: rest)
            (Nd (map (fun row => Nd (Py.slice c0 c1 (nd_items row))) rows)))
  | _ => Fail IndexError "too many indices for array"
  end.

(** One integer index along an axis of length [n]. *)
Definition axis_index (n : nat) (i : Z) : option nat :=
  if (0 <=? i) && (i <? Z.of_nat n) then Some (Z.to_nat i)
  else if (- Z.of_nat n <=? i) && (i <? 0) then Some (Z.to_nat (i + Z.of_nat n))
  else None.

Definition take_items (idx : list Z) (l : list nd) : option (list nd) :=
  mapM (fun i => j ← axis_index (length l) i; l !! j) idx.

(** [a[idx]] resp. [a[idx, :]], [a[idx, :, :]] with an integer array [idx]. *)
Definition take_axis0 (idx : list Z) (a : ndarray) : outcome ndarray :=
  match arr_shape a with
  | h :: rest =>
      match take_items idx (nd_items (arr_buf a)) with
      | Some rows =>
          Done (mk_ndarray (arr_dtype a) (length idx :: rest) (Nd rows))
      | None => Fail IndexError "index out of bounds"
      end
  | _ => Fail IndexError "too many indices for array"
  end.

(** [a[:, idx]] resp. [a[:, idx, :]] with an integer array [idx]. *)
Definition take_axis1 (idx : list Z) (a : ndarray) : outcome ndarray :=
  match arr_shape a with
  | h :: w :: rest =>
      match mapM (fun row => Nd <$> take_items idx (nd_items row))
                 (nd_items (arr_buf a)) with
      | Some rows =>
          Done (mk_ndarray (arr_dtype a) (h :: length idx :: rest) (Nd rows))
      | None => Fail IndexError "index out of bounds"
      end
  | _ => Fail IndexError "too many indices for array"
  end.

(** 64-bit signed arithmetic of integer arrays. *)
Definition int64_min : Z := - 2 ^ 63.
Definition int64_max : Z := 2 ^ 63 - 1.
Definition wrap64 (z : Z) : Z := (z + 2 ^ 63) mod 2 ^ 64 - 2 ^ 63.

(** [(np.arange(n) + offset) % n]: [np.arange] yields 64-bit integers, the
    Python int [offset] is converted to that type (an error when it does
    not fit), the sum wraps around and [%] takes the sign of the divisor.
    For [n = 0] the array is empty. *)
Definition arange_add_mod (n : Z) (offset : Z) : outcome (list Z) :=
  if (int64_min <=? offset) && (offset <=? int64_max)
  then Done (map (fun j => wrap64 (Z.of_nat j + offset) mod n)
               (seq 0 (Z.to_nat n)))
  else Fail OverflowError "Python integer out of bounds for int64".

(** Attributes of an [ndarray] object the package reads.  Any other name
    raises [AttributeError], as [getattr] does. *)
Definition known_attrs : list string := ["shape"; "ndim"; "size"; "dtype"; "T"].

End np.

(** ** Python objects, the store and the outside world *)

Inductive pyval :=
| VNone
| VBool (b : bool)
| VInt (z : Z)
| VFloat (f : float)
| VStr (s : string)
| VConst (name : string)
| VArr (a : ndarray)
| VList (l : list pyval).

Definition of_num (x : Py.num) : pyval :=
  match x with
  | Py.NInt z => VInt z
  | Py.NFloat f => VFloat f
  end.

Definition VPair (a b : pyval) : pyval := VList [a; b].

(** A keyword argument [name=v] of a library call. *)
Definition kw (name : string) (v : pyval) : pyval := VPair (VStr name) v.

(** What the program does to the outside: calls into [cv2] with their
    arguments, in order, and directories it creates. *)
Inductive event :=
| CvCall (fn : string) (args : list pyval)
| Mkdir (folder : string).

Definition loc := nat.

(** An [Image] object has the single attribute [data], a reference to an
    object of the store (in all regular uses an array). *)
Record Image := mk_Image { data : loc }.

(** The outside world: the store, the paths that exist, the paths the
    operating system will not create as a directory (no permission, a
    regular file in the way, ...) with the exception [mkdir] raises on each,
    and what the program has done so far. *)
Record world := mk_world {
  heap : list pyval;
  files : list string;
  refused : list (string * exn_class);
  trace : list event
}.

Definition with_heap (h : list pyval) (w : world) : world :=
  mk_world h (files w) (refused w) (trace w).
Definition with_files (f : list string) (w : world) : world :=
  mk_world (heap w) f (refused w) (trace w).
Definition with_trace (t : list event) (w : world) : world :=
  mk_world (heap w) (files w) (refused w) t.

(** A method body: it runs on a handle [self] in a world and returns a value
    or raises, leaving a handle and a world behind. *)
Definition M (A : Type) : Type := Image -> world -> result A * Image * world.

Definition ret {A} (a : A) : M A := fun self w => (Ok a, self, w).

Definition bind {A B} (m : M A) (k : A -> M B) : M B :=
  fun self w =>
    match m self w with
    | (Ok a, self', w') => k a self' w'
    | (Err e, self', w') => (Err e, self', w')
    end.

Declare Scope py_scope.
Delimit Scope py_scope with py.
Notation "x <- m ;; k" := (bind m (fun x => k))
  (at level 100, m at next level, right associativity) : py_scope.
Notation "m ;; k" := (bind m (fun _ => k))
  (at level 100, right associativity) : py_scope.
Local Open Scope py_scope.

(** [raise c(msg)] *)
Definition raise {A} (c : exn_class) (msg : string) : M A :=
  fun self w => (Err (Raised c msg), self, w).

Definition native {A} (c : exn_class) (what : string) : M A :=
  fun self w => (Err (Native c what), self, w).

Definition lift {A} (r : outcome A) : M A :=
  fun self w =>
    match r with
    | Done a => (Ok a, self, w)
    | Fail c what => (Err (Native c what), self, w)
    end.

(** [if c: raise cls(msg)] *)
Definition check (c : bool) (cls : exn_class) (msg : string) : M unit :=
  if c then raise cls msg else ret tt.

Definition alloc (v : pyval) : M loc :=
  fun self w => (Ok (length (heap w)), self, with_heap (heap w ++ [v]) w).

Definition deref (l : loc) : M pyval :=
  fun self w =>
    match heap w !! l with
    | Some v => (Ok v, self, w)
    | None => (Err (Native AttributeError "data"), self, w)
    end.

Definition self_ref : M loc := fun self w => (Ok (data self), self, w).

(** [self.data], as a value handed on. *)
Definition self_data : M pyval := l <- self_ref ;; deref l.

(** A value used as an array by the package itself (an attribute read, a
    subscript, an operator); [c] is the class raised otherwise. *)
Definition as_array (c : exn_class) (v : pyval) : M ndarray :=
  match v with
  | VArr a => ret a
  | _ => native c "not an ndarray"
  end.

Definition self_array (c : exn_class) : M ndarray :=
  v <- self_data ;; as_array c v.

(** [self.data = v]: the attribute is bound to the object [v]. *)
Definition set_data (v : pyval) : M unit :=
  fun self w =>
    (Ok tt, mk_Image (length (heap w)), with_heap (heap w ++ [v]) w).

(** [self.data[...] = ...] and other writes into the array object that
    [self.data] references. *)
Definition write_data (a : ndarray) : M unit :=
  fun self w => (Ok tt, self, with_heap (<[data self := VArr a]> (heap w)) w).

(** Run a method on another handle [h]; the handle comes back updated. *)
Definition on {A} (h : Image) (m : M A) : M (A * Image) :=
  fun self w =>
    match m h w with
    | (Ok a, h', w') => (Ok (a, h'), self, w')
    | (Err e, _, w') => (Err e, self, w')
    end.

Definition array_of (v : pyval) : option ndarray :=
  match v with
  | VArr a => Some a
  | _ => None
  end.

(** Tuple unpacking and iteration over a library result. *)
Definition as_list (v : pyval) : M (list pyval) :=
  match v with
  | VList l => ret l
  | VArr a => ret (map (fun x => VArr (mk_ndarray (arr_dtype a)
                                         (tail (arr_shape a)) x))
                       (nd_items (arr_buf a)))
  | _ => native TypeError "object is not iterable"
  end.

Definition unpack (n : nat) (v : pyval) : M (list pyval) :=
  l <- as_list v ;;
  if Nat.eqb (length l) n then ret l
  else native ValueError "wrong number of values to unpack".

Definition item (l : list pyval) (i : Z) : M pyval := lift (Py.index l i).

Definition as_int (v : pyval) : M Z :=
  match v with
  | VInt z => ret z
  | _ => native TypeError "not an integer"
  end.

Definition as_bool (v : pyval) : M bool :=
  match v with
  | VBool b => ret b
  | _ => native TypeError "not a boolean"
  end.

(** [Path(p).exists()] *)
Definition path_exists (p : string) : M bool :=
  fun self w => (Ok (Py.str_in p (files w)), self, w).

(** The folders [Path(folder).mkdir(parents=True)] makes sure exist:
    [folder] and each of its ancestors. *)
Definition ancestors (folder : string) : list string :=
  let parts := Py.split "/"%char folder in
  filter (fun p => p <> EmptyString)
         (map (fun n => Py.join "/" (take n parts)) (seq 1 (length parts))).

(** Does the string hold a NUL character?  The operating system takes no
    such path. *)
Fixpoint has_nul (s : string) : bool :=
  match s with
  | EmptyString => false
  | String c r => Ascii.eqb c "000"%char || has_nul r
  end.

Definition refusal (p : string) (no : list (string * exn_class))
    : option exn_class :=
  snd <$> List.find (fun e => String.eqb (fst e) p) no.

(** [os.mkdir] on each of the folders, top down.  A path that exists is
    left alone ([exist_ok=True]); at the first one the operating system
    refuses the walk stops, the folders made so far stay. *)
Fixpoint mkdir_each (folders : list string) (no : list (string * exn_class))
    (fs : list string) : list string * option exn_class :=
  match folders with
  | [] => (fs, None)
  | p :: rest =>
      if Py.str_in p fs then mkdir_each rest no fs
      else match refusal p no with
           | Some c => (fs, Some c)
           | None => mkdir_each rest no (fs ++ [p])
           end
  end.

(** [Path(folder).mkdir(parents=True, exist_ok=True)]: a [ValueError] on a
    NUL character, before anything is made, and otherwise what
    [mkdir_each] meets. *)
Definition mkdir_parents (folder : string) : M unit :=
  fun self w =>
    let w1 := with_trace (trace w ++ [Mkdir folder]) w in
    if has_nul folder
    then (Err (Native ValueError "embedded null byte"), self, w1)
    else match mkdir_each (ancestors folder) (refused w) (files w) with
         | (fs, None) => (Ok tt, self, with_files fs w1)
         | (fs, Some c) => (Err (Native c "mkdir"), self, with_files fs w1)
         end.

(** [a or b], evaluated left to right with short circuit. *)
Definition or_ (a b : M bool) : M bool :=
  x <- a ;; if x then ret true else b.

(** A [for] loop that threads an accumulator. *)
Fixpoint foldM {A B} (f : B -> A -> M B) (l : list A) (b : B) : M B :=
  match l with
  | [] => ret b
  | a :: l' => b' <- f b a ;; foldM f l' b'
  end.

(** A list comprehension. *)
Fixpoint forM {A B} (f : A -> M B) (l : list A) : M (list B) :=
  match l with
  | [] => ret []
  | a :: l' => b <- f a ;; bs <- forM f l' ;; ret (b :: bs)
  end.

Section Library.

(** The vision library is an opaque service.  [cv2 past fn args] is the
    value the call [cv.fn(args)] returns after the events [past], or [None]
    when it raises.  [numpy expr args] stands for the value of a NumPy
    expression the package evaluates on arrays and that is not spelled out
    here ([expr] is the source text of the expression), [None] when it
    raises. *)
Variable cv2 : list event -> string -> list pyval -> option pyval.
Variable numpy : string -> list pyval -> option pyval.

Definition cv (fn : string) (args : list pyval) : M pyval :=
  fun self w =>
    let w' := with_trace (trace w ++ [CvCall fn args]) w in
    match cv2 (trace w) fn args with
    | Some v => (Ok v, self, w')
    | None => (Err (Native LibraryError fn), self, w')
    end.

Definition npx (expr : string) (args : list pyval) : M pyval :=
  match numpy expr args with
  | Some v => ret v
  | None => native LibraryError expr
  end.

(** [np.zeros(shape, dtype)] on this host.  The sizes are checked as in
    [np.zeros]; the allocation then succeeds or raises [MemoryError] as the
    host decides: [numpy "np.zeros"] says which, the array is that of
    [np.zeros]. *)
Definition zeros (sh : list Z) (dtype : string) : M ndarray :=
  a <- lift (np.zeros sh dtype) ;;
  match numpy "np.zeros" [VList (map VInt sh); VConst dtype] with
  | Some _ => ret a
  | None => native MemoryError "Unable to allocate the array"
  end.

(** *** [_imageStructure.py] *)

(** The argument of [Image(input)]: an object already in the store (as in
    [Image(self.data)]) or a fresh value. *)
Inductive ctor_input :=
| ByRef (l : loc)
| ByVal (v : pyval).

Definition __load_image (path : string) : M pyval :=
  e <- path_exists path ;;
  check (negb e) ValueError ("image at " ++ path ++ " not found") ;;
  cv "imread" [VStr path; VConst "cv.IMREAD_COLOR"].

Definition __convert_array (array : pyval) : M pyval :=
  match array with
  | VArr _ => ret array
  | _ => raise TypeError "Wrong image type for conversion"
  end.

(** [ImageStructure.__init__].  The new object's [data] is bound to what
    [__load_image] returns or to the very array passed in. *)
Definition Image_init (input : ctor_input) : M Image :=
  v <- match input with
       | ByRef l => deref l
       | ByVal v => ret v
       end ;;
  match v with
  | VStr path =>
      d <- __load_image path ;;
      l <- alloc d ;;
      ret (mk_Image l)
  | VArr _ =>
      d <- __convert_array v ;;
      l <- match input with
           | ByRef l => ret l
           | ByVal _ => alloc d
           end ;;
      ret (mk_Image l)
  | _ => raise TypeError "Bad type"
  end.

(** The properties. *)
Definition shape : M (list Z) :=
  a <- self_array AttributeError ;; ret (map Z.of_nat (arr_shape a)).

Definition width : M Z := s <- shape ;; lift (Py.index s 1).

Definition height : M Z := s <- shape ;; lift (Py.index s 0).

Definition dim : M Z := s <- shape ;; ret (Z.of_nat (length s)).

(** *** [__init__.py]: [deepcopy], [channels], [crop], [crop2] *)

(** [Image(self.data)]: the new handle references the same array object. *)
Definition deepcopy : M Image := l <- self_ref ;; Image_init (ByRef l).

(** [cv.split(m)] returns a tuple of arrays, one per channel.  Any other
    answer of the oracle is treated as a failed call. *)
Definition cv_split (m : pyval) : M (list ndarray) :=
  chans <- cv "split" [m] ;;
  l <- as_list chans ;;
  match mapM array_of l with
  | Some arrays => ret arrays
  | None => native LibraryError "split"
  end.

Definition channels : M (list Image) :=
  d <- self_data ;;
  chans <- cv_split d ;;
  forM (fun c => Image_init (ByVal (VArr c))) chans.

Definition idx (l : list Z) (i : Z) : M Z := lift (Py.index l i).

Definition crop (tl br : list Z) (inplace : bool) : M (option Image) :=
  c <- or_ (t <- idx tl 0 ;; ret (t <? 0)) (t <- idx tl 1 ;; ret (t <? 0)) ;;
  check c ValueError "Wrong tl" ;;
  c <- or_ (b <- idx br 0 ;; h <- height ;; ret (h <? b))
           (b <- idx br 1 ;; w <- width ;; ret (w <? b)) ;;
  check c ValueError "Wrong br" ;;
  c <- or_ (t <- idx tl 0 ;; b <- idx br 0 ;; ret (b <=? t))
           (t <- idx tl 1 ;; b <- idx br 1 ;; ret (b <=? t)) ;;
  check c ValueError "br must be bigger than tl" ;;
  a <- self_array TypeError ;;
  t0 <- idx tl 0 ;; b0 <- idx br 0 ;; t1 <- idx tl 1 ;; b1 <- idx br 1 ;;
  cropped <- lift (np.slice2 (Some t0) (Some (b0 + 1))
                             (Some t1) (Some (b1 + 1)) a) ;;
  if inplace then set_data (VArr cropped) ;; ret None
  else img <- Image_init (ByVal (VArr cropped)) ;; ret (Some img).

Definition crop2 (tl : list Z) (height width : Z) (inplace : bool)
    : M (option Image) :=
  c <- or_ (t <- idx tl 0 ;; ret (t <? 0)) (t <- idx tl 1 ;; ret (t <? 0)) ;;
  check c ValueError "Wrong tl" ;;
  a <- self_array TypeError ;;
  t0 <- idx tl 0 ;; t1 <- idx tl 1 ;;
  cropped <- lift (np.slice2 (Some t0) (Some (t0 + height))
                             (Some t1) (Some (t1 + width)) a) ;;
  if inplace then set_data (VArr cropped) ;; ret None
  else img <- Image_init (ByVal (VArr cropped)) ;; ret (Some img).

(** *** [_colorMixin.py] *)

Definition __colorspace (code : string) : M unit :=
  d <- dim ;;
  check (negb (d =? 3)) ValueError "Colorspace conversion requires 3 channels." ;;
  s <- shape ;;
  c <- lift (Py.index s 2) ;;
  check (negb (c =? 3)) ValueError ("Excepting 3 channels, found " ++ pretty c) ;;
  x <- self_data ;;
  v <- cv "cvtColor" [x; VConst code] ;;
  set_data v.

Definition BGR_to_LAB : M unit := __colorspace "cv.COLOR_BGR2LAB".
Definition LAB_to_BGR : M unit := __colorspace "cv.COLOR_LAB2BGR".
Definition BGR_to_HSV : M unit := __colorspace "cv.COLOR_BGR2HSV".
Definition HSV_to_BGR : M unit := __colorspace "cv.COLOR_HSV2BGR".
Definition BGR_to_GRAY : M unit := __colorspace "cv.COLOR_BGR2GRAY".

Definition to_BGR : M unit :=
  d <- dim ;;
  if d =? 2
  then x <- self_data ;;
       v <- cv "cvtColor" [x; VConst "cv.COLOR_GRAY2BGR"] ;;
       set_data v
  else ret tt.

Definition to_GRAY : M unit :=
  d <- dim ;;
  if d =? 3 then BGR_to_GRAY else ret tt.

(** [isinstance(a[0, 0], np.uint8)]: the element at row 0, column 0 is a
    scalar only for a two-dimensional array. *)
Definition item00_is_uint8 (a : ndarray) : outcome bool :=
  match arr_shape a with
  | h :: w :: rest =>
      if Nat.eqb h 0 || Nat.eqb w 0
      then Fail IndexError "index 0 is out of bounds"
      else Done (match rest with
                 | [] => String.eqb (arr_dtype a) "uint8"
                 | _ => false
                 end)
  | _ => Fail IndexError "too many indices for array"
  end.

Definition to_depth (scale : string) (target : string) : M unit :=
  a <- self_array TypeError ;;
  u <- lift (item00_is_uint8 a) ;;
  if u then ret tt
  else
    x <- self_data ;;
    max_val <- npx "np.max(self.data)" [x] ;;
    x <- self_data ;;
    min_val <- npx "np.min(self.data)" [x] ;;
    x <- self_data ;;
    temp <- npx ("(self.data - min_val) / (max_val - min_val) * " ++ scale)
                [x; min_val; max_val] ;;
    v <- npx ("temp.astype(" ++ target ++ ")") [temp] ;;
    set_data v.

Definition to_8UC1 : M unit := to_depth "255.0" "np.uint8".
Definition to_16UC1 : M unit := to_depth "65535.0" "np.uint16".

Definition kmeans (K maxiter : Z) (epsilon : Py.num) (equalize : bool) : M unit :=
  d <- dim ;;
  (if d =? 2 then to_BGR else ret tt) ;;
  x <- self_data ;;
  Z0 <- npx "self.data.reshape((-1, 3))" [x] ;;
  Z1 <- npx "np.float32(Z)" [Z0] ;;
  let criteria :=
    VList [VConst "cv.TERM_CRITERIA_EPS + cv.TERM_CRITERIA_MAX_ITER";
           VInt maxiter; of_num epsilon] in
  r <- cv "kmeans" [Z1; VInt K; VNone; criteria; VInt 10;
                    VConst "cv.KMEANS_PP_CENTERS"] ;;
  l <- unpack 3 r ;;
  label <- item l 1 ;;
  center <- item l 2 ;;
  if equalize
  then lf <- npx "label.flatten()" [label] ;;
       s <- shape ;;
       v <- npx "label.flatten().reshape(self.shape[:2]).astype(np.uint8)"
                [lf; VList (map VInt (Py.slice None (Some 2) s))] ;;
       set_data v
  else lf <- npx "label.flatten()" [label] ;;
       cl <- npx "center[label.flatten()]" [center; lf] ;;
       s <- shape ;;
       v <- npx "center[label.flatten()].reshape(self.shape).astype(np.uint8)"
                [cl; VList (map VInt s)] ;;
       set_data v.

(** *** [_generalMixin.py] *)

Definition channel (c : Z) : M unit :=
  d <- dim ;;
  if negb (d =? 2)
  then x <- self_data ;;
       channels <- cv_split x ;;
       v <- lift (Py.index channels c) ;;
       set_data (VArr v)
  else ret tt.

(** The [position] argument of [split]: an index or a string. *)
Inductive position_arg :=
| PosInt (z : Z)
| PosStr (s : string).

(** [if position == "mid": position = extent // 2] *)
Definition resolve_mid (position : position_arg) (extent : M Z)
    : M position_arg :=
  match position with
  | PosStr s =>
      if String.eqb s "mid" then e <- extent ;; ret (PosInt (e / 2))
      else ret position
  | PosInt _ => ret position
  end.

(** A corner coordinate as [crop] reads it: [crop] compares it with a
    number, which raises [TypeError] on a string. *)
Definition coordinate (position : position_arg) : M Z :=
  match position with
  | PosInt z => ret z
  | PosStr _ =>
      native TypeError "'>' not supported between instances of 'str' and 'int'"
  end.

Definition split (direction : string) (position : position_arg)
    : M (option Image * option Image) :=
  check (negb (Py.str_in direction ["h"; "horizontal"; "v"; "vertical"]))
        ValueError "Wrong orientation" ;;
  let tl1 := [0; 0] in
  h <- height ;; w <- width ;;
  let br2 := [h; w] in
  corners <-
    (if Py.str_in direction ["h"; "horizontal"]
     then position <- resolve_mid position height ;;
          w1 <- width ;;
          p <- coordinate position ;;
          ret ([p; w1], [p; 0])
     else position <- resolve_mid position width ;;
          h1 <- height ;;
          p <- coordinate position ;;
          ret ([h1; p], [0; p])) ;;
  first <- crop tl1 (fst corners) false ;;
  secon <- crop (snd corners) br2 false ;;
  ret (first, secon).

Definition negate : M unit :=
  d <- dim ;;
  check (negb (d =? 2)) ValueError "Negation only on 2D images" ;;
  x <- self_data ;;
  v <- npx "~self.data" [x] ;;
  set_data v.

Definition blur (size : Z) (method : string) : M unit :=
  check (negb (Py.str_in method ["gauss"; "average"; "median"; "bilateral"]))
        ValueError "Unexpected method" ;;
  check (size <? 3) ValueError "Size too small, must be bigger than 3." ;;
  check (size mod 2 =? 0) ValueError "Size must be odd" ;;
  if String.eqb method "gauss"
  then x <- self_data ;;
       v <- cv "GaussianBlur" [x; VPair (VInt size) (VInt size); VInt 0] ;;
       set_data v
  else if String.eqb method "average"
  then x <- self_data ;;
       v <- cv "blur" [x; VPair (VInt size) (VInt size)] ;;
       set_data v
  else if String.eqb method "median"
  then x <- self_data ;;
       v <- cv "medianBlur" [x; VInt size] ;;
       set_data v
  else if String.eqb method "bilateral"
  then x <- self_data ;;
       v <- cv "bilateralFilter" [x; VInt size; VInt 100; VInt 100] ;;
       set_data v
  else ret tt.

Definition gaussian_blur (size : Z) (sigma : Py.num) : M unit :=
  x <- self_data ;;
  v <- cv "GaussianBlur" [x; VPair (VInt size) (VInt size); of_num sigma] ;;
  set_data v.

(** [int(a * b)] *)
Definition int_mul (a b : Py.num) : outcome Z :=
  rbind (Py.mul a b) Py.to_int.

Definition resize (param : string) (value : Py.num) (inter : pyval) : M unit :=
  check (negb (Py.str_in param ["width"; "height"; "ratio"]))
        ValueError "Unexpected parameter" ;;
  check (Py.leb value 0) ValueError "Value must be bigger than 0" ;;
  s <- shape ;;
  hw <- match Py.slice None (Some 2) s with
        | [h; w] => ret (h, w)
        | _ => native ValueError "not enough values to unpack"
        end ;;
  let '(h, w) := hw in
  dim <-
    lift (if String.eqb param "height"
          then rbind (Py.to_int value) (fun iv =>
               rbind (Py.float_of_int h) (fun fh =>
               rbind (Py.truediv (Py.NInt iv) (Py.NFloat fh)) (fun r =>
               rbind (int_mul (Py.NInt w) (Py.NFloat r)) (fun d0 =>
               rbind (Py.to_int value) (fun d1 => Done (d0, d1))))))
          else if String.eqb param "width"
          then rbind (Py.to_int value) (fun iv =>
               rbind (Py.float_of_int w) (fun fw =>
               rbind (Py.truediv (Py.NInt iv) (Py.NFloat fw)) (fun r =>
               rbind (Py.to_int value) (fun d0 =>
               rbind (int_mul (Py.NInt h) (Py.NFloat r)) (fun d1 => Done (d0, d1))))))
          else if String.eqb param "ratio"
          then rbind (int_mul (Py.NInt w) value) (fun d0 =>
               rbind (int_mul (Py.NInt h) value) (fun d1 => Done (d0, d1)))
          else Done (w, h)) ;;
  x <- self_data ;;
  v <- cv "resize" [x; VPair (VInt (fst dim)) (VInt (snd dim));
                    kw "interpolation" inter] ;;
  set_data v.

Definition full_resize (dim : list Z) (inter : pyval) : M unit :=
  x <- self_data ;;
  v <- cv "resize" [x; VList (map VInt dim); kw "interpolation" inter] ;;
  set_data v.

Definition rotate90 : M unit :=
  x <- self_data ;;
  v <- cv "rotate" [x; VConst "cv.ROTATE_90_CLOCKWISE"] ;;
  set_data v.

Definition rotate (angle : Py.num) (center : list Z) : M unit :=
  a <- lift (Py.mul (Py.NFloat 1) angle) ;;
  rot_mat <- cv "getRotationMatrix2D"
                [VList (map VInt center); of_num a; VFloat 1] ;;
  x <- self_data ;;
  s <- shape ;;
  v <- cv "warpAffine" [x; rot_mat; VList (map VInt (rev (take 2 s)));
                        kw "flags" (VConst "cv.INTER_NEAREST")] ;;
  set_data v.

Definition equalize_hist (rate : Py.num) : M unit :=
  d <- dim ;;
  check (negb (d =? 2)) ValueError "Equalize only on 2D images" ;;
  x <- self_data ;;
  x8 <- npx "self.data.astype(np.uint8)" [x] ;;
  v <- cv "equalizeHist" [x8] ;;
  set_data v ;;
  x <- self_data ;;
  hist <- npx "np.cumsum(np.histogram(self.data, 255)[0])" [x] ;;
  lowest_value <- npx "np.where((rate * hist[-1]) <= hist)[0][0]"
                      [of_num rate; hist] ;;
  highest_value <- npx "np.where(((1 - rate) * hist[-1]) >= hist)[0][-1]"
                       [of_num rate; hist] ;;
  x <- self_data ;;
  r <- npx "self.data[self.data < lowest_value] = lowest_value"
           [x; lowest_value] ;;
  a <- as_array TypeError r ;;
  write_data a ;;
  x <- self_data ;;
  r <- npx "self.data[self.data > highest_value] = highest_value"
           [x; highest_value] ;;
  a <- as_array TypeError r ;;
  write_data a.

Definition distance_transform : M unit :=
  d <- dim ;;
  check (negb (d =? 2)) ValueError "Distance transform only on 2D images" ;;
  x <- self_data ;;
  v <- cv "distanceTransform" [x; VConst "cv.DIST_L2"; VInt 3] ;;
  set_data v ;;
  x <- self_data ;;
  r <- cv "normalize" [x; x; VInt 0; VInt 1; VConst "cv.NORM_MINMAX"] ;;
  a <- as_array LibraryError r ;;
  write_data a ;;
  x <- self_data ;;
  v <- npx "np.uint8(self.data * 255)" [x] ;;
  set_data v.

(** *** [_thresholdMixin.py] *)

Definition adaptive_threshold (blursize blocksize c : Z) : M unit :=
  d <- dim ;;
  check (negb (d =? 2)) ValueError "Only on 2D images" ;;
  (if 0 <? blursize then blur blursize "gauss" else ret tt) ;;
  x <- self_data ;;
  v <- cv "adaptiveThreshold"
          [x; VInt 255; VConst "cv.ADAPTIVE_THRESH_MEAN_C";
           VConst "cv.THRESH_BINARY_INV"; VInt blocksize; VInt c] ;;
  set_data v.

Definition binarize (threshold : Z) : M unit :=
  d <- dim ;;
  check (negb (d =? 2)) ValueError "Only on 2D images" ;;
  if threshold =? -1
  then x <- self_data ;;
       r <- cv "threshold" [x; VInt 0; VInt 255;
                            VConst "cv.THRESH_BINARY + cv.THRESH_OTSU"] ;;
       l <- unpack 2 r ;;
       v <- item l 1 ;;
       set_data v
  else x <- self_data ;;
       r <- cv "threshold" [x; VInt threshold; VInt 255;
                            VConst "cv.THRESH_BINARY"] ;;
       l <- unpack 2 r ;;
       v <- item l 1 ;;
       set_data v.

(** *** [_morphologicalMixin.py] *)

Definition sharpen : M unit :=
  d <- dim ;;
  check (negb (d =? 2)) ValueError "Only on 2D images" ;;
  filter <- npx "np.array([[-1, -1, -1], [-1, 9, -1], [-1, -1, -1]])" [] ;;
  x <- self_data ;;
  v <- cv "filter2D" [x; VInt (-1); filter] ;;
  set_data v.

(** [open], [close], [dilate] and [erode] differ in the operation only. *)
Definition morphology (op : string) (size element : pyval) : M unit :=
  d <- dim ;;
  check (negb (d =? 2)) ValueError "Only on 2D images" ;;
  kernel <- cv "getStructuringElement" [element; size] ;;
  x <- self_data ;;
  v <- cv "morphologyEx" [x; VConst op; kernel] ;;
  set_data v.

Definition open := morphology "cv.MORPH_OPEN".
Definition close := morphology "cv.MORPH_CLOSE".
Definition dilate := morphology "cv.MORPH_DILATE".
Definition erode := morphology "cv.MORPH_ERODE".

Definition tophat (size : Z) (element : pyval) : M unit :=
  morphology "cv.MORPH_TOPHAT" (VPair (VInt size) (VInt size)) element.

Definition blackhat (size : Z) (element : pyval) : M unit :=
  morphology "cv.MORPH_BLACKHAT" (VPair (VInt size) (VInt size)) element.

(** [a.name] on an array object. *)
Definition ndarray_getattr (a : ndarray) (name : string) : M pyval :=
  if String.eqb name "shape"
  then ret (VList (map (fun n => VInt (Z.of_nat n)) (arr_shape a)))
  else if String.eqb name "ndim" then ret (VInt (Z.of_nat (length (arr_shape a))))
  else if String.eqb name "dtype" then ret (VConst (arr_dtype a))
  else if Py.str_in name np.known_attrs then npx ("ndarray." ++ name) [VArr a]
  else native AttributeError
         ("'numpy.ndarray' object has no attribute '" ++ name ++ "'").

Definition line_strel (size : Z) (angle : Py.num) : M pyval :=
  check (negb (size mod 2 =? 1)) ValueError "Size must be odd" ;;
  line <- zeros [size; size] "float64" ;;
  hgt <- ndarray_getattr line "height" ;;
  line <- npx "line[line.height // 2, :] = 1" [VArr line; hgt] ;;
  let center := VPair (VInt (size / 2)) (VInt (size / 2)) in
  tform <- cv "getRotationMatrix2D" [center; of_num angle; VInt 1] ;;
  l <- as_array AttributeError line ;;
  sh <- ndarray_getattr l "shape" ;;
  kernel <- cv "warpAffine" [line; tform; sh] ;;
  npx "(kernel * 255).astype(np.uint8)" [kernel].

(** The body of the loop over the angles. *)
Definition algebric_step (op : string) (size : Z) (result : pyval) (a : Z)
    : M pyval :=
  kernel <- line_strel size (Py.NInt a) ;;
  x <- self_data ;;
  t <- cv "morphologyEx" [x; VConst op; kernel] ;;
  temp <- npx "temp.astype(np.uint8)" [t] ;;
  npx "np.maximum(result, temp)" [result; temp].

(** [algebric_open] and [algebric_dilate] differ in the operation only. *)
Definition algebric (op : string) (size step : Z) : M unit :=
  d <- dim ;;
  check (negb (d =? 2)) ValueError "Only on 2D images" ;;
  s <- shape ;;
  result <- zeros s "uint8" ;;
  angles <- lift (Py.range 0 180 step) ;;
  result <- foldM (algebric_step op size) angles (VArr result) ;;
  set_data result.

Definition algebric_open := algebric "cv.MORPH_OPEN".
Definition algebric_dilate := algebric "cv.MORPH_DILATE".

Definition gabor : M unit :=
  let ksize := 21 in
  let thetas := [-45] in
  filters <- forM (fun a =>
               cv "getGaborKernel" [VPair (VInt ksize) (VInt ksize); VInt 40;
                                    VInt a; VInt 25; VInt 1])
             thetas ;;
  s <- shape ;;
  result <- zeros s "uint8" ;;
  result <- foldM (fun result kernel =>
              x <- self_data ;;
              imgfiltered <- cv "filter2D" [x; VInt (-1); kernel] ;;
              npx "np.maximum(result, imgfiltered)" [result; imgfiltered])
            filters (VArr result) ;;
  set_data result.

Definition edges (thres1 thres2 : Z) : M unit :=
  x <- self_data ;;
  v <- cv "Canny" [kw "image" x; kw "threshold1" (VInt thres1);
                   kw "threshold2" (VInt thres2)] ;;
  set_data v.

Definition sobel : M unit :=
  x <- self_data ;;
  v <- cv "Sobel" [kw "src" x; kw "ddepth" (VConst "cv.CV_8UC1");
                   kw "dx" (VInt 1); kw "dy" (VInt 1); kw "ksize" (VInt 3)] ;;
  set_data v.

(** *** [_circleMixin.py] *)

Definition get_circle (min max : Z) (div : Py.num) : M (pyval * pyval) :=
  d <- dim ;;
  check (negb (d =? 2)) ValueError "Circle only on 2D images" ;;
  thumbnail <- deepcopy ;;
  ratio <- lift (Py.truediv (Py.NFloat 1) div) ;;
  r <- on thumbnail (resize "ratio" (Py.NFloat ratio) (VConst "cv.INTER_AREA")) ;;
  let thumbnail := snd r in
  x <- on thumbnail self_data ;;
  minRadius <- lift (rbind (Py.truediv (Py.NInt min) div) Py.int_of_float) ;;
  maxRadius <- lift (rbind (Py.truediv (Py.NInt max) div) Py.int_of_float) ;;
  c <- cv "HoughCircles"
          [fst x; VConst "cv.HOUGH_GRADIENT"; VInt 1; VInt 20;
           kw "param1" (VInt 20); kw "param2" (VInt 20);
           kw "minRadius" (VInt minRadius); kw "maxRadius" (VInt maxRadius)] ;;
  center <- npx "c[0][0][0:2] * div" [c; of_num div] ;;
  radius <- npx "c[0][0][2] * div" [c; of_num div] ;;
  ret (center, radius).

(** The [ratio] argument of [crop_at_circle]: a number or a string. *)
Inductive ratio_arg :=
| RatioNum (x : Py.num)
| RatioStr (s : string).

Definition crop_at_circle (center : list Py.num) (radius : Py.num)
    (ratio : ratio_arg) : M unit :=
  let ratio := match ratio with
               | RatioStr s => if String.eqb s "square"
                               then RatioNum (Py.NInt 1) else ratio
               | RatioNum _ => ratio
               end in
  check (negb (Nat.eqb (length center) 2)) ValueError
        "center variable must be of length 2" ;;
  check (Py.gtb radius 0) ValueError "radius must be positive" ;;
  ratio <- match ratio with
           | RatioNum x => ret x
           | RatioStr _ =>
               native TypeError
                 "'>' not supported between instances of 'str' and 'int'"
           end ;;
  check (Py.gtb ratio 0) ValueError "ratio must be positive" ;;
  L1 <- lift (rbind (Py.mul ratio ratio) (fun rr =>
              rbind (Py.add rr (Py.NInt 1)) (fun s =>
              rbind (Py.sqrt s) (fun q =>
              Py.truediv radius (Py.NFloat q))))) ;;
  L2 <- lift (Py.mul (Py.NFloat L1) ratio) ;;
  c1 <- lift (Py.index center 1) ;;
  tl0 <- lift (rbind (Py.sub c1 (Py.NFloat L1)) Py.to_int) ;;
  c0 <- lift (Py.index center 0) ;;
  tl1 <- lift (rbind (Py.sub c0 L2) Py.to_int) ;;
  br0 <- lift (rbind (Py.add c1 (Py.NFloat L1)) Py.to_int) ;;
  br1 <- lift (rbind (Py.add c0 L2) Py.to_int) ;;
  crop [tl0; tl1] [br0; br1] true ;;
  ret tt.

(** [max(l)] and [min(l)] *)
Definition py_max (l : list Z) : M Z :=
  match l with
  | [] => native ValueError "max() arg is an empty sequence"
  | x :: t => ret (fold_left Z.max t x)
  end.

Definition py_min (l : list Z) : M Z :=
  match l with
  | [] => native ValueError "min() arg is an empty sequence"
  | x :: t => ret (fold_left Z.min t x)
  end.

(** [math.asin(x)]: a domain error outside [-1, 1], the value is the
    library's. *)
Definition asin (x : float) : M pyval :=
  match numpy "asin" [VFloat x] with
  | Some v => ret v
  | None => native ValueError "math domain error"
  end.

Definition ring (center radii : list Z) : M unit :=
  check (negb (Nat.eqb (length center) 2)) ValueError
        "center requires 2 coordinates" ;;
  check (negb (Nat.eqb (length center) 2)) ValueError
        "radi requires 2 values" ;;
  mx <- py_max radii ;;
  s <- shape ;;
  mn <- py_min (Py.slice (Some 0) (Some 2) s) ;;
  check (mn / 2 <=? mx) ValueError "radiis have to be < radius" ;;
  mnr <- py_min radii ;;
  check (mnr <=? 0) ValueError "radiis have to be > 0" ;;
  precision_position <- lift (Py.truediv (Py.NInt (fold_right Z.add 0 radii))
                                         (Py.NInt 2)) ;;
  inv <- lift (Py.truediv (Py.NInt 1) (Py.NFloat precision_position)) ;;
  step <- asin inv ;;
  angle_vec <- npx "np.arange(stop=2 * pi, step=asin(1 / precision_position))"
                   [step] ;;
  mx <- py_max radii ;;
  mnr <- py_min radii ;;
  radii_vec <- npx "np.arange(start=max(radii), stop=min(radii), step=-1)"
                   [VInt mx; VInt mnr] ;;
  c0 <- idx center 0 ;;
  coses <- npx "np.array(center[0] - np.outer(np.cos(angle_vec), radii_vec), dtype=np.uint16)"
               [VInt c0; angle_vec; radii_vec] ;;
  c1 <- idx center 1 ;;
  sines <- npx "np.array(center[1] - np.outer(np.sin(angle_vec), radii_vec), dtype=np.uint16)"
               [VInt c1; angle_vec; radii_vec] ;;
  x <- self_data ;;
  v <- npx "self.data[coses, sines].transpose(1, 0, 2)" [x; coses; sines] ;;
  set_data v.

(** The tail of both filters: [concat[:, lo:hi]] with bounds taken from
    [concat.shape[1]]. *)
Definition middle_columns (concat : pyval) (lo hi : Z -> Z) : M unit :=
  c <- as_array AttributeError concat ;;
  n <- lift (Py.index (map Z.of_nat (arr_shape c)) 1) ;;
  r <- lift (np.slice2 None None (Some (lo n)) (Some (hi n)) c) ;;
  set_data (VArr r).

(** The body of the loop over the components: [concat] is the local
    array the loop writes into. *)
Definition filter_objects_step (min_size max_size : Z) (sizes labels : pyval)
    (concat : pyval) (i : Z) : M pyval :=
  c <- or_ (b <- npx "sizes[i] < min_size" [sizes; VInt i; VInt min_size] ;;
            as_bool b)
           (if negb (max_size =? -1)
            then b <- npx "sizes[i] > max_size" [sizes; VInt i; VInt max_size] ;;
                 as_bool b
            else ret false) ;;
  if c then npx "concat[labels == i + 1] = 0" [concat; labels; VInt i]
  else ret concat.

Definition filter_objects (min_size max_size : Z) : M unit :=
  x <- self_data ;;
  w <- width ;;
  a <- as_array TypeError x ;;
  left <- lift (np.slice2 None None (Some (w / 2)) None a) ;;
  x <- self_data ;;
  y <- self_data ;;
  w <- width ;;
  b <- as_array TypeError y ;;
  right <- lift (np.slice2 None None None (Some (w / 2)) b) ;;
  concat <- npx "np.hstack" [VList [VArr left; x; VArr right]] ;;
  r <- cv "connectedComponentsWithStats" [concat; kw "connectivity" (VInt 8)] ;;
  l <- unpack 4 r ;;
  nb_components <- item l 0 ;;
  labels <- item l 1 ;;
  stats <- item l 2 ;;
  sizes <- npx "stats[1:, cv.CC_STAT_AREA]" [stats] ;;
  nb_components <- as_int nb_components ;;
  let nb_components := nb_components - 1 in
  r <- lift (Py.range 0 nb_components 1) ;;
  concat <- foldM (filter_objects_step min_size max_size sizes labels) r concat ;;
  middle_columns concat (fun n => n / 4) (fun n => 3 * n / 4).

Definition filter_border2border_step (coef : Py.num) (heights labels : pyval)
    (concat : pyval) (i : Z) : M pyval :=
  h <- height ;;
  bound <- lift (Py.mul (Py.NInt h) coef) ;;
  b <- npx "heights[i] < self.height * coef" [heights; VInt i; of_num bound] ;;
  c <- as_bool b ;;
  if c then npx "concat[labels == i + 1] = 0" [concat; labels; VInt i]
  else ret concat.

Definition filter_border2border (coef : Py.num) : M unit :=
  x <- self_data ;;
  concat <- npx "np.hstack" [VList [x; x; x]] ;;
  r <- cv "connectedComponentsWithStats" [concat; kw "connectivity" (VInt 8)] ;;
  l <- unpack 4 r ;;
  nb_components <- item l 0 ;;
  labels <- item l 1 ;;
  stats <- item l 2 ;;
  heights <- npx "stats[1:, cv.CC_STAT_HEIGHT]" [stats] ;;
  nb_components <- as_int nb_components ;;
  let nb_components := nb_components - 1 in
  r <- lift (Py.range 0 nb_components 1) ;;
  concat <- foldM (filter_border2border_step coef heights labels) r concat ;;
  middle_columns concat (fun n => n / 3) (fun n => 2 * n / 3).

Definition get_corners : M pyval :=
  h1 <- height ;; w1 <- width ;; h2 <- height ;; w2 <- width ;;
  npx "np.float32"
      [VList [VPair (VInt 0) (VInt 0); VPair (VInt 0) (VInt h1);
              VPair (VInt w1) (VInt h2); VPair (VInt w2) (VInt 0)]].

(** [None.name]: [channel] returns [None]. *)
Definition none_getattr (name : string) : M pyval :=
  native AttributeError ("'NoneType' object has no attribute '" ++ name ++ "'").

(** The body of the loop over the channels. *)
Definition warp_step (Mx : pyval) (channels : list pyval) (idx : Z)
    : M (list pyval) :=
  channel idx ;;
  d <- none_getattr "data" ;;
  w <- width ;;
  h <- height ;;
  arr <- cv "warpPerspective" [d; Mx; VPair (VInt w) (VInt h)] ;;
  ret (channels ++ [arr]).

Definition warp (src dst : ndarray) : M unit :=
  check (bool_decide (arr_shape src = [4; 2]%nat)) ValueError
        "src list needs to be 4x2" ;;
  check (bool_decide (arr_shape dst = [4; 2]%nat)) ValueError
        "dst list needs to be 4x2" ;;
  Mx <- cv "getPerspectiveTransform" [VArr src; VArr dst] ;;
  s <- shape ;;
  max_range <- (if Nat.eqb (length s) 3 then s <- shape ;; lift (Py.index s 2)
                else ret 1) ;;
  r <- lift (Py.range 0 max_range 1) ;;
  channels <- foldM (warp_step Mx) r [] ;;
  arr <- npx "np.stack(channels)" [VList channels] ;;
  v <- npx "arr.swapaxes(0, 2).swapaxes(0, 1)" [arr] ;;
  set_data v.

(** *** [_outputMixin.py] *)

Definition show (label : string) (height width : Z) : M unit :=
  display <- deepcopy ;;
  display <-
    (if negb (height =? 0)
     then r <- on display (resize "height" (Py.NInt height)
                                  (VConst "cv.INTER_AREA")) ;;
          ret (snd r)
     else if negb (width =? 0)
     then r <- on display (resize "width" (Py.NInt width)
                                  (VConst "cv.INTER_AREA")) ;;
          ret (snd r)
     else ret display) ;;
  x <- on display self_data ;;
  cv "imshow" [VStr label; fst x] ;;
  cv "waitKey" [VInt 0] ;;
  ret tt.

(** [path.split(".")[-1]] *)
Definition extension (path : string) : outcome string :=
  Py.index (Py.split "."%char path) (-1).

(** ["/".join(path.replace("\\", "/").split("/")[0:-1])] *)
Definition folder_of (path : string) : string :=
  let substrings := Py.split "/"%char (Py.replace "\"%char "/"%char path) in
  Py.join "/" (Py.slice (Some 0) (Some (-1)) substrings).

Definition save (path : string) : M unit :=
  ext <- lift (extension path) ;;
  check (negb (Py.str_in ext ["jpg"; "jpeg"; "png"])) ValueError
        "Unrecognised image file type" ;;
  let folder := folder_of path in
  c <- (if negb (String.eqb folder "")
        then e <- path_exists folder ;; ret (negb e)
        else ret false) ;;
  (if c then mkdir_parents folder else ret tt) ;;
  x <- self_data ;;
  cv "imwrite" [VStr path; x] ;;
  ret tt.

(** *** [_toClassifyMixin.py] *)

Definition integral : M unit :=
  d <- dim ;;
  (if d =? 3 then BGR_to_GRAY else ret tt) ;;
  x <- self_data ;;
  v <- npx "self.data.astype(np.float32) / 255.0" [x] ;;
  set_data v ;;
  x <- self_data ;;
  v <- cv "integral" [x] ;;
  set_data v.

Definition vertical_shift (offset : Z) : M unit :=
  w <- width ;;
  w' <- width ;;
  new_indexes <- lift (np.arange_add_mod w offset) ;;
  d <- dim ;;
  if d =? 3
  then a <- self_array TypeError ;;
       r <- lift (np.take_axis1 new_indexes a) ;;
       set_data (VArr r)
  else if d =? 2
  then a <- self_array TypeError ;;
       r <- lift (np.take_axis1 new_indexes a) ;;
       set_data (VArr r)
  else ret tt.

Definition horizontal_shift (offset : Z) : M unit :=
  h <- height ;;
  h' <- height ;;
  new_indexes <- lift (np.arange_add_mod h offset) ;;
  d <- dim ;;
  if d =? 3
  then a <- self_array TypeError ;;
       r <- lift (np.take_axis0 new_indexes a) ;;
       set_data (VArr r)
  else if d =? 2
  then a <- self_array TypeError ;;
       r <- lift (np.take_axis0 new_indexes a) ;;
       set_data (VArr r)
  else ret tt.

(** *** [__init__.py]: [blend] *)

(** The [other] argument of [blend]: an [Image] or some other object. *)
Inductive other_arg :=
| OtherImage (h : Image)
| OtherObject (v : pyval).

Definition blend (other : other_arg) (alpha : Py.num) : M unit :=
  match other with
  | OtherObject _ => raise TypeError "Wrong input image type"
  | OtherImage other =>
      check (Py.ltb alpha 0 || Py.gtb alpha 1) ValueError
            "Alpha must be in [0, 1]" ;;
      img1 <- deepcopy ;;
      r <- on other deepcopy ;;
      let img2 := fst r in
      r <- on img1 to_BGR ;;
      let img1 := snd r in
      r <- on img2 to_BGR ;;
      let img2 := snd r in
      x1 <- on img1 self_data ;;
      beta <- lift (Py.sub (Py.NInt 1) alpha) ;;
      x2 <- on img2 self_data ;;
      v <- cv "addWeighted" [fst x1; of_num beta; fst x2; of_num alpha;
                             VFloat 0] ;;
      set_data v
  end.

(** *** The public operations of the handle *)

Inductive operation :=
| Op_deepcopy
| Op_channels
| Op_blend (other : other_arg) (alpha : Py.num)
| Op_crop (tl br : list Z) (inplace : bool)
| Op_crop2 (tl : list Z) (height width : Z) (inplace : bool)
| Op_channel (c : Z)
| Op_split (direction : string) (position : position_arg)
| Op_negate
| Op_blur (size : Z) (method : string)
| Op_gaussian_blur (size : Z) (sigma : Py.num)
| Op_resize (param : string) (value : Py.num) (inter : pyval)
| Op_full_resize (dim : list Z) (inter : pyval)
| Op_rotate90
| Op_rotate (angle : Py.num) (center : list Z)
| Op_equalize_hist (rate : Py.num)
| Op_distance_transform
| Op_adaptive_threshold (blursize blocksize c : Z)
| Op_binarize (threshold : Z)
| Op_sharpen
| Op_open (size element : pyval)
| Op_close (size element : pyval)
| Op_dilate (size element : pyval)
| Op_erode (size element : pyval)
| Op_tophat (size : Z) (element : pyval)
| Op_algebric_open (size step : Z)
| Op_algebric_dilate (size step : Z)
| Op_blackhat (size : Z) (element : pyval)
| Op_gabor
| Op_edges (thres1 thres2 : Z)
| Op_sobel
| Op_get_circle (min max : Z) (div : Py.num)
| Op_crop_at_circle (center : list Py.num) (radius : Py.num) (ratio : ratio_arg)
| Op_ring (center radii : list Z)
| Op_filter_objects (min_size max_size : Z)
| Op_filter_border2border (coef : Py.num)
| Op_get_corners
| Op_warp (src dst : ndarray)
| Op_BGR_to_LAB | Op_LAB_to_BGR | Op_BGR_to_HSV | Op_HSV_to_BGR | Op_BGR_to_GRAY
| Op_to_BGR | Op_to_GRAY | Op_to_8UC1 | Op_to_16UC1
| Op_kmeans (K maxiter : Z) (epsilon : Py.num) (equalize : bool)
| Op_show (label : string) (height width : Z)
| Op_save (path : string)
| Op_integral
| Op_vertical_shift (offset : Z)
| Op_horizontal_shift (offset : Z).

Definition void {A} (m : M A) : M unit := m ;; ret tt.

(** [run op]: the call [self.op(...)], its return value dropped. *)
Definition run (op : operation) : M unit :=
  match op with
  | Op_deepcopy => void deepcopy
  | Op_channels => void channels
  | Op_blend other alpha => blend other alpha
  | Op_crop tl br inplace => void (crop tl br inplace)
  | Op_crop2 tl h w inplace => void (crop2 tl h w inplace)
  | Op_channel c => channel c
  | Op_split direction position => void (split direction position)
  | Op_negate => negate
  | Op_blur size method => blur size method
  | Op_gaussian_blur size sigma => gaussian_blur size sigma
  | Op_resize param value inter => resize param value inter
  | Op_full_resize d inter => full_resize d inter
  | Op_rotate90 => rotate90
  | Op_rotate angle center => rotate angle center
  | Op_equalize_hist rate => equalize_hist rate
  | Op_distance_transform => distance_transform
  | Op_adaptive_threshold blursize blocksize c =>
      adaptive_threshold blursize blocksize c
  | Op_binarize threshold => binarize threshold
  | Op_sharpen => sharpen
  | Op_open size element => open size element
  | Op_close size element => close size element
  | Op_dilate size element => dilate size element
  | Op_erode size element => erode size element
  | Op_tophat size element => tophat size element
  | Op_algebric_open size step => algebric_open size step
  | Op_algebric_dilate size step => algebric_dilate size step
  | Op_blackhat size element => blackhat size element
  | Op_gabor => gabor
  | Op_edges thres1 thres2 => edges thres1 thres2
  | Op_sobel => sobel
  | Op_get_circle mn mx div => void (get_circle mn mx div)
  | Op_crop_at_circle center radius ratio => crop_at_circle center radius ratio
  | Op_ring center radii => ring center radii
  | Op_filter_objects min_size max_size => filter_objects min_size max_size
  | Op_filter_border2border coef => filter_border2border coef
  | Op_get_corners => void get_corners
  | Op_warp src dst => warp src dst
  | Op_BGR_to_LAB => BGR_to_LAB
  | Op_LAB_to_BGR => LAB_to_BGR
  | Op_BGR_to_HSV => BGR_to_HSV
  | Op_HSV_to_BGR => HSV_to_BGR
  | Op_BGR_to_GRAY => BGR_to_GRAY
  | Op_to_BGR => to_BGR
  | Op_to_GRAY => to_GRAY
  | Op_to_8UC1 => to_8UC1
  | Op_to_16UC1 => to_16UC1
  | Op_kmeans K maxiter epsilon equalize => kmeans K maxiter epsilon equalize
  | Op_show label h w => show label h w
  | Op_save path => save path
  | Op_integral => integral
  | Op_vertical_shift offset => vertical_shift offset
  | Op_horizontal_shift offset => horizontal_shift offset
  end.

End Library.

(** * Vocabulary of the statements *)

Local Open Scope Z_scope.

(** The handle [self] references the array [a]. *)
Definition holds (self : Image) (w : world) (a : ndarray) : Prop :=
  heap w !! data self = Some (VArr a).

(** Nothing reachable before is lost: every object of [w] is still in [w']
    at the same place. *)
Definition heap_kept (w w' : world) : Prop :=
  forall (l : loc) (v : pyval), heap w !! l = Some v -> heap w' !! l = Some v.

Definition blur_methods : list string :=
  ["gauss"; "average"; "median"; "bilateral"].

Definition no_height : string :=
  "'numpy.ndarray' object has no attribute 'height'".

(** [np.zeros(shape, dtype)] returns on this host: NumPy accepts the sizes
    and the memory is there. *)
Definition zeros_returns (numpy : string -> list pyval -> option pyval)
    (sh : list Z) (dtype : string) : Prop :=
  (exists a, np.zeros sh dtype = Done a) /\
  numpy "np.zeros" [VList (map VInt sh); VConst dtype] <> None.






(** The columns rotated by [offset]. *)
Definition rotate_items (offset : Z) (cols : list nd) : list nd :=
  map (fun j => nth (Z.to_nat ((Z.of_nat j + offset) mod Z.of_nat (length cols)))
                    cols (Item 0))
      (seq 0 (length cols)).

(** Every row of the array has its columns rotated by [offset]. *)
Definition rotate_columns (offset : Z) (a : ndarray) : ndarray :=
  mk_ndarray (arr_dtype a) (arr_shape a)
    (Nd (map (fun row => Nd (rotate_items offset (nd_items row)))
             (nd_items (arr_buf a)))).




(** ** The rank of the stored arrays *)

(** An array of two or three dimensions. *)
Definition rank_ok (a : ndarray) : bool :=
  Nat.eqb (length (arr_shape a)) 2 || Nat.eqb (length (arr_shape a)) 3.

(** Every array in the value has two or three dimensions. *)
Fixpoint ranked (v : pyval) : bool :=
  match v with
  | VArr a => rank_ok a
  | VList l => forallb ranked l
  | _ => true
  end.

(** Every array of the store has two or three dimensions. *)
Definition images_ranked (w : world) : Prop :=
  forall l v, heap w !! l = Some v -> ranked v = true.

(** The library calls whose answer the package stores in an image. *)
Definition stored_cv : list string :=
  ["Canny";
   "GaussianBlur";
   "Sobel";
   "adaptiveThreshold";
   "addWeighted";
   "bilateralFilter";
   "blur";
   "cvtColor";
   "distanceTransform";
   "equalizeHist";
   "filter2D";
   "imread";
   "integral";
   "medianBlur";
   "morphologyEx";
   "normalize";
   "resize";
   "rotate";
   "split";
   "threshold";
   "warpAffine"]%string.

Definition stored_np : list string :=
  ["arr.swapaxes(0, 2).swapaxes(0, 1)";
   "center[label.flatten()].reshape(self.shape).astype(np.uint8)";
   "concat[labels == i + 1] = 0";
   "label.flatten().reshape(self.shape[:2]).astype(np.uint8)";
   "np.hstack";
   "np.maximum(result, imgfiltered)";
   "np.maximum(result, temp)";
   "np.uint8(self.data * 255)";
   "self.data.astype(np.float32) / 255.0";
   "self.data[coses, sines].transpose(1, 0, 2)";
   "self.data[self.data < lowest_value] = lowest_value";
   "self.data[self.data > highest_value] = highest_value";
   "temp.astype(np.uint8)";
   "~self.data";
   "temp.astype(np.uint16)"]%string.

(** The library calls whose answer the package unpacks as a tuple. *)
Definition tuple_cv : list string :=
  ["split";
   "threshold"]%string.

(** Where the package stores the library's answer, the library hands back
    arrays of two or three dimensions only; the calls whose answer is
    unpacked hand back a tuple. *)
Definition library_ranked (cv2 : list event -> string -> list pyval -> option pyval)
    (numpy : string -> list pyval -> option pyval) : Prop :=
  (forall past fn args v,
     In fn stored_cv -> cv2 past fn args = Some v -> ranked v = true) /\
  (forall past fn args a,
     In fn tuple_cv -> cv2 past fn args <> Some (VArr a)) /\
  (forall expr args v,
     In expr stored_np -> numpy expr args = Some v -> ranked v = true).

(** The argument of the constructor holds arrays of two or three dimensions
    only. *)
Definition input_ranked (input : ctor_input) : Prop :=
  match input with
  | ByRef _ => True
  | ByVal v => ranked v = true
  end.

(** [m] keeps the store ranked and its result satisfies [Q]. *)
Definition keeps {A} (m : M A) (Q : A -> Prop) : Prop :=
  forall self w r s' w',
    images_ranked w -> m self w = (r, s', w') ->
    images_ranked w' /\ (forall a, r = Ok a -> Q a).

(** Every handle that holds an array reports two or three dimensions. *)
Definition dim_2_or_3 (w : world) : Prop :=
  forall h a, holds h w a ->
    dim h w = (Ok 2, h, w) \/ dim h w = (Ok 3, h, w).

(** ** Inputs of the concrete runs *)

Definition demo_gray : ndarray :=
  mk_ndarray "uint8" [3%nat; 4%nat]
    (Nd [Nd [Item 1; Item 2; Item 3; Item 4];
         Nd [Item 5; Item 6; Item 7; Item 8];
         Nd [Item 9; Item 10; Item 11; Item 12]]).

(** A library in which every call fails, and one that hands back its first
    argument. *)
Definition cv_none : list event -> string -> list pyval -> option pyval :=
  fun _ _ _ => None.

Definition cv_echo : list event -> string -> list pyval -> option pyval :=
  fun _ _ args => head args.


(** A host on which [np.zeros] finds its memory and every other NumPy
    expression fails. *)
Definition np_allocates : string -> list pyval -> option pyval :=
  fun expr _ => if String.eqb expr "np.zeros" then Some VNone else None.

(** A library that answers every call but [cv.split] and [cv.threshold]
    with the 3 x 4 image. *)
Definition cv_gray : list event -> string -> list pyval -> option pyval :=
  fun _ fn _ => if Py.str_in fn tuple_cv then None else Some (VArr demo_gray).

Definition row_123 : ndarray :=
  mk_ndarray "uint8" [1%nat; 3%nat] (Nd [Nd [Item 1; Item 2; Item 3]]).

Definition row_322 : ndarray :=
  mk_ndarray "uint8" [1%nat; 3%nat] (Nd [Nd [Item 3; Item 2; Item 2]]).

Definition vector_3 : ndarray :=
  mk_ndarray "uint8" [3%nat] (Nd [Item 1; Item 2; Item 3]).


(** A world whose store holds the single array [a], at location 0. *)
Definition world_of (a : ndarray) : world := mk_world [VArr a] [] [] [].

Definition handle0 : Image := mk_Image 0%nat.

(** * Tactics *)

Ltac unfold_monad :=
  unfold void, check, or_, idx, item, as_int, as_bool, unpack, as_list,
    self_array, self_data, as_array, path_exists in *;
  unfold self_ref, deref, set_data, write_data, alloc, on in *;
  unfold bind, ret, lift, raise, native in *.

Ltac split_cases :=
  repeat (simpl in *; first [progress simplify_eq | case_match]).

Ltac red_state :=
  cbn [negb andb orb fst snd heap trace files refused data
       with_trace with_heap with_files foldM forM].

Ltac case_if :=
  match goal with
  | |- context [if ?c then _ else _] => destruct c eqn:?
  end.




Ltac zify_bools :=
  repeat match goal with
  | H : (_ <? _) = true |- _ => apply Z.ltb_lt in H
  | H : (_ <? _) = false |- _ => apply Z.ltb_ge in H
  | H : (_ <=? _) = true |- _ => apply Z.leb_le in H
  | H : (_ <=? _) = false |- _ => apply Z.leb_gt in H
  | H : (_ =? _) = true |- _ => apply Z.eqb_eq in H
  | H : (_ =? _) = false |- _ => apply Z.eqb_neq in H
  end.

(** * Sanity checks of the Python and NumPy helpers *)

Example to_int_7_5 : Py.to_int (Py.NFloat 7.5%float) = Done 7.
Proof. reflexivity. Qed.

Example truediv_7_2 : Py.truediv (Py.NInt 7) (Py.NInt 2) = Done 3.5%float.
Proof. reflexivity. Qed.

Example truediv_1_3 :
  Py.truediv (Py.NInt 1) (Py.NInt 3) = Done (PrimFloat.div 1 3).
Proof. vm_compute. reflexivity. Qed.

Example truediv_m2_3 :
  Py.truediv (Py.NInt (-2)) (Py.NInt 3) = Done (PrimFloat.div (-2) 3).
Proof. vm_compute. reflexivity. Qed.

Example range_20_5 : Py.range 0 20 5 = Done [0; 5; 10; 15].
Proof. reflexivity. Qed.

Example range_20_7 : Py.range 0 20 7 = Done [0; 7; 14].
Proof. reflexivity. Qed.

Example range_neg : Py.range 0 180 (-5) = Done [].
Proof. reflexivity. Qed.

Example range_down : Py.range 10 0 (-3) = Done [10; 7; 4; 1].
Proof. reflexivity. Qed.

Example split_ex : Py.split "."%char "a.b.png" = ["a"; "b"; "png"]%string.
Proof. reflexivity. Qed.

Example split_ex2 : Py.split "/"%char "/img.png" = [""; "img.png"]%string.
Proof. reflexivity. Qed.

Example slice_ex : Py.slice (Some 1) (Some (-1)) [1;2;3;4;5] = [2;3;4].
Proof. reflexivity. Qed.

Example slice_ex2 : Py.slice (Some 3) (Some 10) [1;2;3;4;5] = [4;5].
Proof. reflexivity. Qed.

Example zeros_2_3 :
  np.zeros [2; 3] "uint8" =
  Done (mk_ndarray "uint8" [2%nat; 3%nat]
        (Nd [Nd [Item 0; Item 0; Item 0]; Nd [Item 0; Item 0; Item 0]])).
Proof. reflexivity. Qed.

Example slice2_demo :
  np.slice2 (Some 0) (Some 2) (Some 1) (Some 3) demo_gray =
  Done (mk_ndarray "uint8" [2%nat; 2%nat]
        (Nd [Nd [Item 2; Item 3]; Nd [Item 6; Item 7]])).
Proof. reflexivity. Qed.

Example take_axis1_demo :
  rbind (np.arange_add_mod 4 1) (fun idx => np.take_axis1 idx demo_gray) =
  Done (mk_ndarray "uint8" [3%nat; 4%nat]
        (Nd [Nd [Item 2; Item 3; Item 4; Item 1];
             Nd [Item 6; Item 7; Item 8; Item 5];
             Nd [Item 10; Item 11; Item 12; Item 9]])).
Proof. reflexivity. Qed.

Example ancestors_ex : ancestors "out/a/b" = ["out"; "out/a"; "out/a/b"]%string.
Proof. reflexivity. Qed.

Example ancestors_abs : ancestors "/tmp/x" = ["/tmp"; "/tmp/x"]%string.
Proof. reflexivity. Qed.

(** * Lists, strings, arrays and the monad *)

Lemma index_lookup {A} (l : list A) (i : nat) (a : A) :
  l !! i = Some a -> Py.index l (Z.of_nat i) = Done a.
Proof.
  intros H. unfold Py.index.
  pose proof (lookup_lt_Some _ _ _ H) as Hlt.
  destruct (Z.of_nat i <? 0) eqn:Hn; [lia |].
  replace ((0 <=? Z.of_nat i) && (Z.of_nat i <? Z.of_nat (length l))) with true
    by (symmetry; apply andb_true_iff; split; lia).
  rewrite Nat2Z.id, H. reflexivity.
Qed.

Lemma index_0 {A} (x : A) (l : list A) : Py.index (x :: l) 0 = Done x.
Proof. apply (index_lookup (x :: l) 0). reflexivity. Qed.

Lemma index_1 {A} (x y : A) (l : list A) : Py.index (x :: y :: l) 1 = Done y.
Proof. apply (index_lookup (x :: y :: l) 1). reflexivity. Qed.

Lemma index_2 {A} (x y z : A) (l : list A) : Py.index (x :: y :: z :: l) 2 = Done z.
Proof. apply (index_lookup (x :: y :: z :: l) 2). reflexivity. Qed.

Lemma clamp_le (i : Z) (n : nat) : (Py.clamp i n <= n)%nat.
Proof. unfold Py.clamp. destruct (i <? 0) eqn:H; lia. Qed.

Lemma clamp_inside (i : Z) (n : nat) :
  0 <= i <= Z.of_nat n -> Py.clamp i n = Z.to_nat i.
Proof. intros H. unfold Py.clamp. destruct (i <? 0) eqn:Hn; lia. Qed.

Lemma slice_length {A} (start stop : option Z) (l : list A) :
  length (Py.slice start stop l) = Py.slice_len start stop (length l).
Proof.
  unfold Py.slice, Py.slice_len.
  destruct (Py.slice_bounds start stop (length l)) as [a b] eqn:Hb.
  rewrite length_take, length_drop.
  assert (b <= length l)%nat.
  { unfold Py.slice_bounds in Hb. inversion Hb; subst.
    destruct stop; [apply clamp_le | lia]. }
  lia.
Qed.

Lemma slice_inside {A} (i j : Z) (l : list A) :
  0 <= i <= j -> j <= Z.of_nat (length l) ->
  Py.slice (Some i) (Some j) l = take (Z.to_nat (j - i)) (drop (Z.to_nat i) l).
Proof.
  intros Hi Hj. unfold Py.slice, Py.slice_bounds.
  rewrite !clamp_inside by lia. f_equal. lia.
Qed.

Lemma slice_len_inside (i j : Z) (n : nat) :
  0 <= i <= j -> j <= Z.of_nat n ->
  Py.slice_len (Some i) (Some j) n = Z.to_nat (j - i).
Proof.
  intros Hi Hj. unfold Py.slice_len, Py.slice_bounds.
  rewrite !clamp_inside by lia. lia.
Qed.

Lemma str_in_In (s : string) (l : list string) : Py.str_in s l = true <-> In s l.
Proof.
  unfold Py.str_in. rewrite existsb_exists. split.
  - intros (x & Hin & Heq). apply String.eqb_eq in Heq. subst. assumption.
  - intros Hin. exists s. split; [assumption | apply String.eqb_refl].
Qed.

Lemma has_shape_cons (n : nat) (s : list nat) (x : nd) :
  has_shape (n :: s) x = true <->
  exists l, x = Nd l /\ length l = n /\ Forall (fun y => has_shape s y = true) l.
Proof.
  destruct x as [v | l]; simpl.
  - split; [discriminate | intros (l & H & _); discriminate].
  - rewrite andb_true_iff, Nat.eqb_eq, forallb_forall. split.
    + intros [H1 H2]. exists l. repeat split; [assumption |].
      apply List.Forall_forall. exact H2.
    + intros (l' & Heq & H1 & H2). inversion Heq; subst. split; [reflexivity |].
      apply List.Forall_forall. exact H2.
Qed.

Lemma slice_Forall {A} (P : A -> Prop) (start stop : option Z) (l : list A) :
  Forall P l -> Forall P (Py.slice start stop l).
Proof.
  intros H. unfold Py.slice.
  destruct (Py.slice_bounds start stop (length l)) as [a b].
  apply Forall_take, Forall_drop, H.
Qed.

(** Slicing keeps an array well formed: the declared shape of the result is
    the shape of its elements. *)
Lemma slice2_wf (r0 r1 c0 c1 : option Z) (a a' : ndarray) :
  wf_array a = true -> np.slice2 r0 r1 c0 c1 a = Done a' -> wf_array a' = true.
Proof.
  unfold wf_array, np.slice2. intros Hwf H.
  destruct (arr_shape a) as [| h [| w rest]] eqn:Hs; try discriminate.
  inversion H; subst; clear H. cbn [arr_shape arr_buf].
  apply has_shape_cons in Hwf as (rows & Hbuf & Hlen & Hrows).
  rewrite Hbuf. cbn [nd_items].
  apply has_shape_cons. eexists. split; [reflexivity |]. split.
  - rewrite length_map, slice_length, Hlen. reflexivity.
  - apply Forall_map. apply slice_Forall.
    eapply Forall_impl; [exact Hrows |]. intros row Hrow. cbn beta.
    apply has_shape_cons in Hrow as (cols & Hrow & Hclen & Hcols).
    subst row. cbn [nd_items]. apply has_shape_cons.
    eexists. split; [reflexivity |]. split.
    + rewrite slice_length, Hclen. reflexivity.
    + apply slice_Forall, Hcols.
Qed.

Lemma shape_holds (self : Image) (w : world) (a : ndarray) :
  holds self w a -> shape self w = (Ok (map Z.of_nat (arr_shape a)), self, w).
Proof. unfold holds, shape. intros H. unfold_monad. rewrite H. reflexivity. Qed.

Lemma dim_holds (self : Image) (w : world) (a : ndarray) :
  holds self w a -> dim self w = (Ok (Z.of_nat (length (arr_shape a))), self, w).
Proof.
  intros H. unfold dim, bind. rewrite (shape_holds _ _ _ H).
  unfold ret. rewrite length_map. reflexivity.
Qed.

Lemma height_holds (self : Image) (w : world) (a : ndarray) h rest :
  holds self w a -> arr_shape a = h :: rest ->
  height self w = (Ok (Z.of_nat h), self, w).
Proof.
  intros H Hs. unfold height, bind. rewrite (shape_holds _ _ _ H), Hs.
  unfold lift. cbn [map]. rewrite index_0. reflexivity.
Qed.

Lemma width_holds (self : Image) (w : world) (a : ndarray) h wd rest :
  holds self w a -> arr_shape a = h :: wd :: rest ->
  width self w = (Ok (Z.of_nat wd), self, w).
Proof.
  intros H Hs. unfold width, bind. rewrite (shape_holds _ _ _ H), Hs.
  unfold lift. cbn [map]. rewrite index_1. reflexivity.
Qed.

Lemma range_positive_step (stop step : Z) :
  0 < stop -> 0 < step ->
  exists l, Py.range 0 stop step = Done (0 :: l).
Proof.
  intros Hstop Hstep. unfold Py.range.
  destruct (step =? 0) eqn:E0; [lia |].
  destruct (0 <? step) eqn:E1; [| lia].
  assert (H : 1 <= (stop - 0 + step - 1) / step).
  { apply Z.div_le_lower_bound; lia. }
  destruct (Z.to_nat ((stop - 0 + step - 1) / step)) as [| n] eqn:En; [lia |].
  cbn [Py.range_up]. eauto.
Qed.

Lemma run_bind {A B} (m : M A) (k : A -> M B) (self s1 : Image)
    (w w1 : world) (r : result A) :
  m self w = (r, s1, w1) ->
  bind m k self w = match r with
                    | Ok a => k a s1 w1
                    | Err e => (Err e, s1, w1)
                    end.
Proof. intros H. unfold bind. rewrite H. destruct r; reflexivity. Qed.

Lemma run_ret {A B} (a : A) (k : A -> M B) (self : Image) (w : world) :
  bind (ret a) k self w = k a self w.
Proof. reflexivity. Qed.

Lemma run_lift {A B} (r : outcome A) (k : A -> M B) (self : Image) (w : world) :
  bind (lift r) k self w = match r with
                           | Done a => k a self w
                           | Fail c what => (Err (Native c what), self, w)
                           end.
Proof. destruct r; reflexivity. Qed.














Lemma wrap64_small (z : Z) : - 2 ^ 63 <= z < 2 ^ 63 -> np.wrap64 z = z.
Proof. intros H. unfold np.wrap64. rewrite Z.mod_small; lia. Qed.

(** Without overflow the index array is [(j + offset) mod n]. *)
Lemma arange_add_mod_exact (n : nat) (offset : Z) :
  Z.abs offset + Z.of_nat n < 2 ^ 63 ->
  np.arange_add_mod (Z.of_nat n) offset =
  Done (map (fun j => (Z.of_nat j + offset) mod Z.of_nat n) (seq 0 n)).
Proof.
  intros H. unfold np.arange_add_mod, np.int64_min, np.int64_max.
  replace ((- 2 ^ 63 <=? offset) && (offset <=? 2 ^ 63 - 1)) with true
    by (symmetry; apply andb_true_iff; split; apply Z.leb_le; lia).
  rewrite Nat2Z.id. f_equal. apply map_ext_in. intros j Hj.
  apply in_seq in Hj. rewrite wrap64_small by lia. reflexivity.
Qed.

Lemma axis_index_inside (n : nat) (i : Z) :
  0 <= i < Z.of_nat n -> np.axis_index n i = Some (Z.to_nat i).
Proof.
  intros H. unfold np.axis_index.
  replace ((0 <=? i) && (i <? Z.of_nat n)) with true
    by (symmetry; apply andb_true_iff; split; [apply Z.leb_le | apply Z.ltb_lt]; lia).
  reflexivity.
Qed.

Lemma take_items_nth (idx : list Z) (l : list nd) (d : nd) :
  Forall (fun i => 0 <= i < Z.of_nat (length l)) idx ->
  np.take_items idx l = Some (map (fun i => nth (Z.to_nat i) l d) idx).
Proof.
  unfold np.take_items. induction idx as [| i idx IH]; intros H; [reflexivity |].
  inversion H as [| ? ? Hi Hrest]; subst. cbn [mapM map].
  rewrite axis_index_inside by exact Hi.
  rewrite (IH Hrest). cbn [mbind option_bind].
  destruct (l !! Z.to_nat i) as [x |] eqn:Hx.
  - cbn [mbind option_bind mret option_ret].
    do 2 f_equal. symmetry. apply nth_lookup_Some with (d := d) in Hx. exact Hx.
  - apply lookup_ge_None in Hx. lia.
Qed.

Lemma nth_map_seq {A} (f : nat -> A) (n k : nat) (d : A) :
  (k < n)%nat -> nth k (map f (seq 0 n)) d = f k.
Proof.
  intros Hk.
  rewrite (nth_indep _ d (f 0%nat)) by (rewrite length_map, length_seq; lia).
  rewrite (map_nth f (seq 0 n) 0%nat k), seq_nth by lia. reflexivity.
Qed.

Lemma map_nth_seq (l : list nd) (d : nd) :
  map (fun j => nth j l d) (seq 0 (length l)) = l.
Proof.
  apply nth_ext with (d := d) (d' := d).
  - rewrite length_map, length_seq. reflexivity.
  - intros k Hk. rewrite length_map, length_seq in Hk.
    rewrite nth_map_seq by lia. reflexivity.
Qed.

Lemma rotate_items_length (offset : Z) (cols : list nd) :
  length (rotate_items offset cols) = length cols.
Proof. unfold rotate_items. rewrite length_map, length_seq. reflexivity. Qed.

Lemma take_items_rotate (offset : Z) (cols : list nd) :
  np.take_items (map (fun j => (Z.of_nat j + offset) mod Z.of_nat (length cols))
                     (seq 0 (length cols))) cols =
  Some (rotate_items offset cols).
Proof.
  rewrite (take_items_nth _ _ (Item 0)).
  - unfold rotate_items. rewrite map_map. reflexivity.
  - apply List.Forall_forall. intros i Hi. apply in_map_iff in Hi as (j & <- & Hj).
    apply in_seq in Hj. apply Z.mod_pos_bound. lia.
Qed.

Lemma rotate_items_inverse (offset : Z) (cols : list nd) :
  rotate_items (- offset) (rotate_items offset cols) = cols.
Proof.
  unfold rotate_items at 1. rewrite rotate_items_length.
  transitivity (map (fun j => nth j cols (Item 0)) (seq 0 (length cols)));
    [| apply map_nth_seq].
  apply map_ext_in. intros j Hj. apply in_seq in Hj.
  set (n := Z.of_nat (length cols)).
  assert (Hn : 0 < n) by lia.
  pose proof (Z.mod_pos_bound (Z.of_nat j + - offset) n Hn) as Hb.
  unfold rotate_items. rewrite nth_map_seq by lia. rewrite Z2Nat.id by lia.
  fold n. rewrite Z.add_mod_idemp_l by lia.
  replace (Z.of_nat j + - offset + offset) with (Z.of_nat j) by lia.
  rewrite Z.mod_small by lia. rewrite Nat2Z.id. reflexivity.
Qed.

Lemma rotate_items_full_turn (cols : list nd) :
  rotate_items (Z.of_nat (length cols)) cols = cols.
Proof.
  unfold rotate_items.
  transitivity (map (fun j => nth j cols (Item 0)) (seq 0 (length cols)));
    [| apply map_nth_seq].
  apply map_ext_in. intros j Hj. apply in_seq in Hj.
  rewrite <- (Z.mul_1_l (Z.of_nat (length cols))) at 1.
  rewrite Z.mod_add by lia. rewrite Z.mod_small by lia.
  rewrite Nat2Z.id. reflexivity.
Qed.

Lemma mapM_pointwise {A B} (f : A -> option B) (g : A -> B) (l : list A) :
  Forall (fun x => f x = Some (g x)) l -> mapM f l = Some (map g l).
Proof.
  induction 1 as [| x l Hx _ IH]; [reflexivity |].
  cbn [mapM map]. rewrite Hx, IH. reflexivity.
Qed.

Lemma wf_rows (a : ndarray) (h wd : nat) (rest : list nat) :
  wf_array a = true -> arr_shape a = h :: wd :: rest ->
  exists rows,
    arr_buf a = Nd rows /\ length rows = h /\
    Forall (fun row => exists cols,
                row = Nd cols /\ length cols = wd /\
                Forall (fun x => has_shape rest x = true) cols) rows.
Proof.
  unfold wf_array. intros Hwf Hs. rewrite Hs in Hwf.
  apply has_shape_cons in Hwf as (rows & Hbuf & Hlen & Hrows).
  exists rows. repeat split; [assumption .. |].
  eapply Forall_impl; [exact Hrows |]. cbn beta. intros row Hrow.
  apply has_shape_cons in Hrow as (cols & -> & Hl & Hc). eauto.
Qed.

Lemma take_axis1_rotate (a : ndarray) (h wd : nat) (rest : list nat) (offset : Z) :
  wf_array a = true -> arr_shape a = h :: wd :: rest ->
  np.take_axis1 (map (fun j => (Z.of_nat j + offset) mod Z.of_nat wd) (seq 0 wd)) a =
  Done (rotate_columns offset a).
Proof.
  intros Hwf Hs. destruct (wf_rows _ _ _ _ Hwf Hs) as (rows & Hbuf & Hlen & Hrows).
  unfold np.take_axis1, rotate_columns. rewrite Hs, Hbuf. cbn [nd_items].
  rewrite (mapM_pointwise _ (fun row => Nd (rotate_items offset (nd_items row)))).
  - rewrite length_map, length_seq. reflexivity.
  - eapply Forall_impl; [exact Hrows |]. cbn beta.
    intros row (cols & -> & Hl & _). cbn [nd_items]. rewrite <- Hl.
    rewrite take_items_rotate. reflexivity.
Qed.

Lemma rotate_items_elements (P : nd -> Prop) (offset : Z) (cols : list nd) :
  Forall P cols -> Forall P (rotate_items offset cols).
Proof.
  intros H. unfold rotate_items. apply Forall_map. apply List.Forall_forall.
  intros j Hj. apply in_seq in Hj. cbn beta.
  rewrite List.Forall_forall in H. apply H. apply nth_In.
  pose proof (Z.mod_pos_bound (Z.of_nat j + offset) (Z.of_nat (length cols))). lia.
Qed.

Lemma rotate_columns_wf (a : ndarray) (h wd : nat) (rest : list nat) (offset : Z) :
  wf_array a = true -> arr_shape a = h :: wd :: rest ->
  wf_array (rotate_columns offset a) = true.
Proof.
  intros Hwf Hs. destruct (wf_rows _ _ _ _ Hwf Hs) as (rows & Hbuf & Hlen & Hrows).
  unfold wf_array, rotate_columns. cbn [arr_shape arr_buf]. rewrite Hs, Hbuf.
  cbn [nd_items]. apply has_shape_cons. eexists. split; [reflexivity |].
  split; [rewrite length_map; exact Hlen |].
  apply Forall_map. eapply Forall_impl; [exact Hrows |]. cbn beta.
  intros row (cols & -> & Hl & Hc). cbn [nd_items].
  apply has_shape_cons. eexists. split; [reflexivity |].
  split; [rewrite rotate_items_length; exact Hl |].
  apply rotate_items_elements. exact Hc.
Qed.

Lemma map_fixes {A} (f : A -> A) (l : list A) :
  Forall (fun x => f x = x) l -> map f l = l.
Proof. induction 1 as [| x l Hx _ IH]; cbn; [reflexivity | rewrite Hx, IH; reflexivity]. Qed.

Lemma rotate_columns_inverse (a : ndarray) (h wd : nat) (rest : list nat)
    (offset : Z) :
  wf_array a = true -> arr_shape a = h :: wd :: rest ->
  rotate_columns (- offset) (rotate_columns offset a) = a.
Proof.
  intros Hwf Hs. destruct (wf_rows _ _ _ _ Hwf Hs) as (rows & Hbuf & Hlen & Hrows).
  destruct a as [dt sh buf]. cbn [arr_shape arr_buf] in *. subst buf.
  unfold rotate_columns. cbn [arr_dtype arr_shape arr_buf nd_items].
  f_equal. f_equal. rewrite map_map. apply map_fixes.
  eapply Forall_impl; [exact Hrows |]. cbn beta.
  intros row (cols & -> & _ & _). cbn [nd_items].
  rewrite rotate_items_inverse. reflexivity.
Qed.

Lemma rotate_columns_full_turn (a : ndarray) (h wd : nat) (rest : list nat) :
  wf_array a = true -> arr_shape a = h :: wd :: rest ->
  rotate_columns (Z.of_nat wd) a = a.
Proof.
  intros Hwf Hs. destruct (wf_rows _ _ _ _ Hwf Hs) as (rows & Hbuf & Hlen & Hrows).
  destruct a as [dt sh buf]. cbn [arr_shape arr_buf] in *. subst buf.
  unfold rotate_columns. cbn [arr_dtype arr_shape arr_buf nd_items].
  f_equal. f_equal. apply map_fixes.
  eapply Forall_impl; [exact Hrows |]. cbn beta.
  intros row (cols & -> & Hl & _). cbn [nd_items].
  rewrite <- Hl. rewrite rotate_items_full_turn. reflexivity.
Qed.

(** One shift without overflow: the handle is bound to a new array, the
    old one with its columns rotated. *)
Lemma vertical_shift_rotates (self : Image) (w : world) (a : ndarray)
    (h wd : nat) (rest : list nat) (offset : Z) :
  holds self w a -> wf_array a = true ->
  arr_shape a = h :: wd :: rest -> (length rest <= 1)%nat ->
  Z.abs offset + Z.of_nat wd < 2 ^ 63 ->
  vertical_shift offset self w =
  (Ok tt, mk_Image (length (heap w)),
   with_heap (heap w ++ [VArr (rotate_columns offset a)]) w).
Proof.
  intros Hh Hwf Hs Hrest Hoff. unfold vertical_shift.
  rewrite (run_bind _ _ _ _ _ _ _ (width_holds _ _ _ _ _ _ Hh Hs)).
  rewrite (run_bind _ _ _ _ _ _ _ (width_holds _ _ _ _ _ _ Hh Hs)).
  rewrite run_lift, (arange_add_mod_exact _ _ Hoff).
  rewrite (run_bind _ _ _ _ _ _ _ (dim_holds _ _ _ Hh)), Hs.
  assert (Hself : self_array TypeError self w = (Ok a, self, w)).
  { unfold_monad. unfold holds in Hh. rewrite Hh. reflexivity. }
  destruct rest as [| c [| c' rest]]; [| | cbn in Hrest; lia]; cbn [length].
  - change (Z.of_nat 2 =? 3) with false. change (Z.of_nat 2 =? 2) with true.
    cbn iota.
    rewrite (run_bind _ _ _ _ _ _ _ Hself), run_lift,
      (take_axis1_rotate _ _ _ _ _ Hwf Hs); reflexivity.
  - change (Z.of_nat 3 =? 3) with true. cbn iota.
    rewrite (run_bind _ _ _ _ _ _ _ Hself), run_lift,
      (take_axis1_rotate _ _ _ _ _ Hwf Hs); reflexivity.
Qed.

Lemma holds_after_set (w : world) (a : ndarray) :
  holds (mk_Image (length (heap w))) (with_heap (heap w ++ [VArr a]) w) a.
Proof.
  unfold holds. cbn. rewrite lookup_app_r by lia.
  rewrite Nat.sub_diag. reflexivity.
Qed.

(** C10 (amended).  On a two- or three-dimensional image and for an offset
    with [|offset| + width < 2^63], so that the 64-bit column indices do not
    wrap around, [vertical_shift(offset)] rotates the columns of every row
    and [vertical_shift(-offset)] after it restores the buffer; when
    [2 * width < 2^63], [vertical_shift(width)] leaves the buffer as it
    was. *)
Theorem vertical_shift_round_trip (self : Image) (w : world) (a : ndarray)
    (h wd : nat) (rest : list nat) (offset : Z) :
  holds self w a -> wf_array a = true ->
  arr_shape a = h :: wd :: rest -> (length rest <= 1)%nat ->
  Z.abs offset + Z.of_nat wd < 2 ^ 63 ->
  exists self1 w1 self2 w2,
    vertical_shift offset self w = (Ok tt, self1, w1) /\
    holds self1 w1 (rotate_columns offset a) /\
    vertical_shift (- offset) self1 w1 = (Ok tt, self2, w2) /\
    holds self2 w2 a /\
    (2 * Z.of_nat wd < 2 ^ 63 ->
     exists self3 w3,
       vertical_shift (Z.of_nat wd) self w = (Ok tt, self3, w3) /\
       holds self3 w3 a).
Proof.
  intros Hh Hwf Hs Hrest Hoff.
  pose proof (vertical_shift_rotates _ _ _ _ _ _ _ Hh Hwf Hs Hrest Hoff) as H1.
  set (self1 := mk_Image (length (heap w))) in *.
  set (w1 := with_heap (heap w ++ [VArr (rotate_columns offset a)]) w) in *.
  assert (Hh1 : holds self1 w1 (rotate_columns offset a)) by apply holds_after_set.
  pose proof (rotate_columns_wf _ _ _ _ offset Hwf Hs) as Hwf1.
  assert (Hs1 : arr_shape (rotate_columns offset a) = h :: wd :: rest) by exact Hs.
  assert (Hoff' : Z.abs (- offset) + Z.of_nat wd < 2 ^ 63) by lia.
  pose proof (vertical_shift_rotates _ _ _ _ _ _ _ Hh1 Hwf1 Hs1 Hrest Hoff') as H2.
  rewrite (rotate_columns_inverse _ _ _ _ _ Hwf Hs) in H2.
  do 4 eexists. split; [exact H1 |]. split; [exact Hh1 |].
  split; [exact H2 |]. split; [apply holds_after_set |].
  intros Hw.
  assert (Hoffw : Z.abs (Z.of_nat wd) + Z.of_nat wd < 2 ^ 63) by lia.
  pose proof (vertical_shift_rotates _ _ _ _ _ _ _ Hh Hwf Hs Hrest Hoffw) as H3.
  rewrite (rotate_columns_full_turn _ _ _ _ Hwf Hs) in H3.
  do 2 eexists. split; [exact H3 | apply holds_after_set].
Qed.

Lemma lookup_kept_app (hp extra : list pyval) (l : loc) (v : pyval) :
  hp !! l = Some v -> (hp ++ extra) !! l = Some v.
Proof. intros H. rewrite lookup_app_l; [exact H | eapply lookup_lt_Some; exact H]. Qed.



(** * Tactics for the operations *)




(** * Every array of the store has two or three dimensions *)

Lemma images_ranked_app (w : world) (v : pyval) :
  images_ranked w -> ranked v = true ->
  images_ranked (with_heap (heap w ++ [v]) w).
Proof.
  intros Hw Hv l x. cbn [heap with_heap]. intros H.
  apply lookup_app_Some in H as [H | [_ H]]; [exact (Hw _ _ H) |].
  apply list_lookup_singleton_Some in H as [_ <-]. exact Hv.
Qed.

Lemma images_ranked_insert (w : world) (i : loc) (v : pyval) :
  images_ranked w -> ranked v = true ->
  images_ranked (with_heap (<[i := v]> (heap w)) w).
Proof.
  intros Hw Hv l x. cbn [heap with_heap]. intros H.
  apply list_lookup_insert_Some in H as [(-> & <- & _) | [_ H]];
    [exact Hv | exact (Hw _ _ H)].
Qed.

Lemma keeps_bind {A B} (m : M A) (k : A -> M B) (P : A -> Prop) (Q : B -> Prop) :
  keeps m P -> (forall a, P a -> keeps (k a) Q) -> keeps (bind m k) Q.
Proof.
  intros Hm Hk self w r s' w' Hw. unfold bind.
  destruct (m self w) as [[[a | e] s1] w1] eqn:E; intros H.
  - destruct (Hm _ _ _ _ _ Hw E) as [Hw1 Ha].
    exact (Hk a (Ha a eq_refl) _ _ _ _ _ Hw1 H).
  - inversion H; subst. destruct (Hm _ _ _ _ _ Hw E) as [Hw1 _].
    split; [exact Hw1 | discriminate].
Qed.

Lemma keeps_true {A} (m : M A) (P : A -> Prop) :
  keeps m P -> keeps m (fun _ => True).
Proof.
  intros Hm self w r s' w' Hw H. destruct (Hm _ _ _ _ _ Hw H) as [Hw' _].
  split; [exact Hw' | auto].
Qed.

Lemma keeps_ret {A} (a : A) : keeps (ret a) (fun x => x = a).
Proof.
  intros self w r s' w' Hw H. inversion H; subst.
  split; [exact Hw |]. intros x Hx. inversion Hx. reflexivity.
Qed.

Lemma keeps_raise {A} (c : exn_class) (msg : string) :
  keeps (@raise A c msg) (fun _ => False).
Proof.
  intros self w r s' w' Hw H. inversion H; subst. split; [exact Hw | discriminate].
Qed.

Lemma keeps_native {A} (c : exn_class) (what : string) :
  keeps (@native A c what) (fun _ => False).
Proof.
  intros self w r s' w' Hw H. inversion H; subst. split; [exact Hw | discriminate].
Qed.

Lemma keeps_lift {A} (o : outcome A) : keeps (lift o) (fun a => o = Done a).
Proof.
  intros self w r s' w' Hw. unfold lift. destruct o; intros H; inversion H; subst.
  - split; [exact Hw |]. intros x Hx. inversion Hx. reflexivity.
  - split; [exact Hw | discriminate].
Qed.

Lemma keeps_check (c : bool) (cls : exn_class) (msg : string) :
  keeps (check c cls msg) (fun _ => c = false).
Proof.
  intros self w r s' w' Hw. unfold check, raise, ret.
  destruct c; intros H; inversion H; subst.
  - split; [exact Hw | discriminate].
  - split; [exact Hw | reflexivity].
Qed.

Lemma keeps_self_ref : keeps self_ref (fun _ => True).
Proof.
  intros self w r s' w' Hw H. inversion H; subst. split; [exact Hw | auto].
Qed.

Lemma keeps_deref (l : loc) : keeps (deref l) (fun v => ranked v = true).
Proof.
  intros self w r s' w' Hw. unfold deref.
  destruct (heap w !! l) as [v |] eqn:E; intros H; inversion H; subst.
  - split; [exact Hw |]. intros x Hx. inversion Hx; subst. exact (Hw _ _ E).
  - split; [exact Hw | discriminate].
Qed.

Lemma keeps_self_data : keeps self_data (fun v => ranked v = true).
Proof.
  intros self w r s' w' Hw. unfold self_data, self_ref, deref, bind.
  destruct (heap w !! data self) as [v |] eqn:E; intros H; inversion H; subst.
  - split; [exact Hw |]. intros x Hx. inversion Hx; subst. exact (Hw _ _ E).
  - split; [exact Hw | discriminate].
Qed.

Lemma keeps_as_array (c : exn_class) (v : pyval) :
  keeps (as_array c v) (fun a => v = VArr a).
Proof.
  intros self w r s' w' Hw. unfold as_array, ret, native.
  destruct v; intros H; inversion H; subst; (split; [exact Hw |]);
    try discriminate.
  intros x Hx. inversion Hx. reflexivity.
Qed.

Lemma keeps_self_array (c : exn_class) :
  keeps (self_array c) (fun a => rank_ok a = true).
Proof.
  unfold self_array. eapply keeps_bind; [apply keeps_self_data |].
  intros v Hv self w r s' w' Hw H.
  destruct (keeps_as_array c v _ _ _ _ _ Hw H) as [Hw' Ha].
  split; [exact Hw' |]. intros a Hr. rewrite (Ha a Hr) in Hv. exact Hv.
Qed.

Lemma keeps_set_data (v : pyval) :
  ranked v = true -> keeps (set_data v) (fun _ => True).
Proof.
  intros Hv self w r s' w' Hw H. inversion H; subst.
  split; [apply images_ranked_app; assumption | auto].
Qed.

Lemma keeps_alloc (v : pyval) :
  ranked v = true -> keeps (alloc v) (fun _ => True).
Proof.
  intros Hv self w r s' w' Hw H. inversion H; subst.
  split; [apply images_ranked_app; assumption | auto].
Qed.

Lemma keeps_write_data (a : ndarray) :
  rank_ok a = true -> keeps (write_data a) (fun _ => True).
Proof.
  intros Ha self w r s' w' Hw H. inversion H; subst.
  split; [apply images_ranked_insert; assumption | auto].
Qed.

Lemma keeps_on {A} (h : Image) (m : M A) (P : A -> Prop) :
  keeps m P -> keeps (on h m) (fun p => P (fst p)).
Proof.
  intros Hm self w r s' w' Hw. unfold on.
  destruct (m h w) as [[[a | e] h'] w1] eqn:E; intros H; inversion H; subst;
    destruct (Hm _ _ _ _ _ Hw E) as [Hw1 Ha]; (split; [exact Hw1 |]).
  - intros p Hp. inversion Hp; subst. apply Ha. reflexivity.
  - discriminate.
Qed.

Lemma keeps_path_exists (p : string) : keeps (path_exists p) (fun _ => True).
Proof.
  intros self w r s' w' Hw H. inversion H; subst. split; [exact Hw | auto].
Qed.

Lemma keeps_mkdir_parents (folder : string) :
  keeps (mkdir_parents folder) (fun _ => True).
Proof.
  intros self w r s' w' Hw. unfold mkdir_parents.
  destruct (has_nul folder); [intros H; inversion H; subst; split; [exact Hw | auto] |].
  destruct (mkdir_each _ _ _) as [fs [c |]]; intros H; inversion H; subst;
    (split; [exact Hw | auto]).
Qed.

Lemma keeps_as_list (v : pyval) :
  keeps (as_list v) (fun l => v = VList l \/ array_of v <> None).
Proof.
  intros self w r s' w' Hw. unfold as_list, ret, native.
  destruct v; intros H; inversion H; subst; (split; [exact Hw |]);
    try discriminate; intros x Hx; inversion Hx; subst.
  - right. discriminate.
  - left. reflexivity.
Qed.

Lemma keeps_unpack (n : nat) (v : pyval) :
  keeps (unpack n v) (fun l => v = VList l \/ array_of v <> None).
Proof.
  unfold unpack. intros self w r s' w' Hw. unfold bind.
  destruct (as_list v self w) as [[[l | e] s1] w1] eqn:E.
  - destruct (keeps_as_list v _ _ _ _ _ Hw E) as [Hw1 Hl].
    unfold ret, native. destruct (Nat.eqb (length l) n); intros H; inversion H; subst.
    + split; [exact Hw1 |]. intros x Hx. inversion Hx; subst. apply Hl. reflexivity.
    + split; [exact Hw1 | discriminate].
  - intros H. inversion H; subst.
    destruct (keeps_as_list v _ _ _ _ _ Hw E) as [Hw1 _].
    split; [exact Hw1 | discriminate].
Qed.

Lemma keeps_as_int (v : pyval) : keeps (as_int v) (fun _ => True).
Proof.
  intros self w r s' w' Hw. unfold as_int, ret, native.
  destruct v; intros H; inversion H; subst; (split; [exact Hw | auto]).
Qed.

Lemma keeps_as_bool (v : pyval) : keeps (as_bool v) (fun _ => True).
Proof.
  intros self w r s' w' Hw. unfold as_bool, ret, native.
  destruct v; intros H; inversion H; subst; (split; [exact Hw | auto]).
Qed.

Lemma keeps_foldM {A B} (f : B -> A -> M B) (I : B -> Prop) (l : list A) :
  (forall b a, I b -> keeps (f b a) I) ->
  forall b, I b -> keeps (foldM f l b) I.
Proof.
  intros Hf. induction l as [| a l IH]; intros b Hb; cbn [foldM].
  - intros self w r s' w' Hw H. inversion H; subst.
    split; [exact Hw |]. intros x Hx. inversion Hx; subst. exact Hb.
  - eapply keeps_bind; [apply Hf; exact Hb |]. intros b' Hb'. apply IH. exact Hb'.
Qed.

Lemma keeps_forM {A B} (f : A -> M B) (R : A -> Prop) (l : list A) :
  Forall R l -> (forall a, R a -> keeps (f a) (fun _ => True)) ->
  keeps (forM f l) (fun _ => True).
Proof.
  intros Hl Hf. induction Hl as [| a l Ha _ IH]; cbn [forM].
  - eapply keeps_true. apply keeps_ret.
  - eapply keeps_bind; [apply Hf; exact Ha |]. intros b _.
    eapply keeps_bind; [exact IH |]. intros bs _.
    eapply keeps_true. apply keeps_ret.
Qed.

(** Facts on ranks. *)
Lemma rank_slice2 r0 r1 c0 c1 (a c : ndarray) :
  np.slice2 r0 r1 c0 c1 a = Done c -> rank_ok a = true -> rank_ok c = true.
Proof.
  unfold np.slice2, rank_ok. destruct (arr_shape a) as [| h [| wd rest]] eqn:E;
    try discriminate.
  intros H. inversion H; subst. cbn [arr_shape length]. auto.
Qed.

Lemma rank_take_axis0 idx (a c : ndarray) :
  np.take_axis0 idx a = Done c -> rank_ok a = true -> rank_ok c = true.
Proof.
  unfold np.take_axis0, rank_ok. destruct (arr_shape a) as [| h rest] eqn:E;
    try discriminate.
  destruct (np.take_items _ _); try discriminate.
  intros H. inversion H; subst. cbn [arr_shape length]. auto.
Qed.

Lemma rank_take_axis1 idx (a c : ndarray) :
  np.take_axis1 idx a = Done c -> rank_ok a = true -> rank_ok c = true.
Proof.
  unfold np.take_axis1, rank_ok. destruct (arr_shape a) as [| h [| wd rest]] eqn:E;
    try discriminate.
  destruct (mapM _ _); try discriminate.
  intros H. inversion H; subst. cbn [arr_shape length]. auto.
Qed.

Lemma rank_zeros (a z : ndarray) (dtype : string) :
  np.zeros (map Z.of_nat (arr_shape a)) dtype = Done z ->
  rank_ok a = true -> rank_ok z = true.
Proof.
  unfold np.zeros, rbind, rank_ok. destruct (np.total_bytes _ _); try discriminate.
  intros H. inversion H; subst. cbn [arr_shape]. rewrite !length_map. auto.
Qed.

Lemma index_In {A} (l : list A) (i : Z) (x : A) :
  Py.index l i = Done x -> In x l.
Proof.
  unfold Py.index. destruct (_ && _); [| discriminate].
  destruct (l !! _) eqn:E; [| discriminate].
  intros H. inversion H; subst. apply list_elem_of_In. eapply list_elem_of_lookup_2. exact E.
Qed.

Lemma ranked_item (r : pyval) (l : list pyval) (i : Z) (v : pyval) :
  ranked r = true -> r = VList l \/ array_of r <> None ->
  array_of r = None ->
  Py.index l i = Done v -> ranked v = true.
Proof.
  intros Hr [-> | Ha] Hn Hi; [| contradiction].
  cbn [ranked] in Hr. rewrite forallb_forall in Hr. apply Hr.
  apply index_In in Hi. exact Hi.
Qed.

Lemma mapM_array_of_In (l : list pyval) (arrays : list ndarray) :
  mapM array_of l = Some arrays ->
  forall c, In c arrays -> In (VArr c) l.
Proof.
  revert arrays. induction l as [| v l IH]; intros arrays H c Hc.
  - cbn in H. inversion H; subst. destruct Hc.
  - cbn [mapM] in H. destruct (array_of v) as [a |] eqn:Ea; [| discriminate H].
    destruct (mapM array_of l) as [rest |] eqn:Er; [| discriminate H].
    cbn in H. inversion H; subst.
    destruct v; try discriminate Ea. inversion Ea; subst.
    destruct Hc as [<- | Hc]; [left; reflexivity | right; apply (IH rest eq_refl c Hc)].
Qed.

Lemma rank_index (l : list ndarray) (i : Z) (v : ndarray) :
  Forall (fun c => rank_ok c = true) l -> Py.index l i = Done v ->
  rank_ok v = true.
Proof.
  intros Hl Hi. apply index_In in Hi. rewrite List.Forall_forall in Hl. auto.
Qed.

Section Ranks.

Variable cv2 : list event -> string -> list pyval -> option pyval.
Variable numpy : string -> list pyval -> option pyval.
Hypothesis Hlib : library_ranked cv2 numpy.

Lemma keeps_cv (fn : string) (args : list pyval) :
  keeps (cv cv2 fn args)
        (fun v => (In fn stored_cv -> ranked v = true) /\
                  (In fn tuple_cv -> array_of v = None)).
Proof.
  destruct Hlib as (Hcv & Htuple & _).
  intros self w r s' w' Hw. unfold cv.
  destruct (cv2 (trace w) fn args) as [v |] eqn:E; intros H; inversion H; subst.
  - split; [exact Hw |]. intros x Hx. inversion Hx; subst.
    split; [intros Hfn; exact (Hcv _ _ _ _ Hfn E) |].
    intros Hfn. destruct x; try reflexivity. exfalso. exact (Htuple _ _ _ _ Hfn E).
  - split; [exact Hw | discriminate].
Qed.

Lemma keeps_npx (expr : string) (args : list pyval) :
  keeps (npx numpy expr args) (fun v => In expr stored_np -> ranked v = true).
Proof.
  destruct Hlib as (_ & _ & Hnp).
  intros self w r s' w' Hw. unfold npx, ret, native.
  destruct (numpy expr args) as [v |] eqn:E; intros H; inversion H; subst.
  - split; [exact Hw |]. intros x Hx. inversion Hx; subst.
    intros Hin. exact (Hnp _ _ _ Hin E).
  - split; [exact Hw | discriminate].
Qed.

Lemma keeps_asin (x : float) : keeps (asin numpy x) (fun _ => True).
Proof.
  intros self w r s' w' Hw. unfold asin, ret, native.
  destruct (numpy "asin" _) as [v |] eqn:E; intros H; inversion H; subst;
    (split; [exact Hw |]); [intros; exact I | discriminate].
Qed.

Lemma keeps_zeros (sh : list Z) (dtype : string) :
  keeps (zeros numpy sh dtype) (fun a => np.zeros sh dtype = Done a).
Proof.
  intros self w r s' w' Hw. unfold zeros, bind, lift, ret, native.
  destruct (np.zeros sh dtype) as [a | c what]; [| intros H; inversion H; subst;
    split; [exact Hw | discriminate]].
  destruct (numpy "np.zeros" _); intros H; inversion H; subst;
    (split; [exact Hw |]); [| discriminate].
  intros x Hx. inversion Hx. reflexivity.
Qed.

Lemma keeps_shape :
  keeps shape (fun s => exists a, rank_ok a = true /\ s = map Z.of_nat (arr_shape a)).
Proof.
  unfold shape. eapply keeps_bind; [apply keeps_self_array |].
  intros a Ha self w r s' w' Hw H. inversion H; subst.
  split; [exact Hw |]. intros s Hs. inversion Hs; subst.
  exists a. split; [exact Ha | reflexivity].
Qed.

Lemma keeps_cv_split (m : pyval) :
  keeps (cv_split cv2 m) (Forall (fun c => rank_ok c = true)).
Proof.
  unfold cv_split. eapply keeps_bind; [apply keeps_cv |].
  intros chans [Hr Hn]. eapply keeps_bind; [apply keeps_as_list |].
  intros l Hl. specialize (Hr ltac:(apply str_in_In; reflexivity)).
  specialize (Hn ltac:(apply str_in_In; reflexivity)).
  destruct Hl as [-> | Ha]; [| contradiction].
  cbn [ranked] in Hr. rewrite forallb_forall in Hr.
  destruct (mapM array_of l) as [arrays |] eqn:E.
  - intros self w r s' w' Hw H. inversion H; subst.
    split; [exact Hw |]. intros x Hx. inversion Hx; subst.
    apply List.Forall_forall. intros c Hc.
    apply (Hr (VArr c)). exact (mapM_array_of_In _ _ E c Hc).
  - intros self w r s' w' Hw H. inversion H; subst. split; [exact Hw | discriminate].
Qed.

Lemma keeps_load_image (path : string) :
  keeps (__load_image cv2 path) (fun v => ranked v = true).
Proof.
  unfold __load_image. eapply keeps_bind; [apply keeps_path_exists |].
  intros e _. eapply keeps_bind; [apply keeps_check |]. intros _ _.
  intros self w r s' w' Hw H.
  destruct (keeps_cv _ _ _ _ _ _ _ Hw H) as [Hw' Hv].
  split; [exact Hw' |]. intros v Hr. apply (Hv v Hr).
  apply str_in_In. reflexivity.
Qed.

Lemma keeps_convert_array (v : pyval) :
  keeps (__convert_array v) (fun d => d = v).
Proof.
  intros self w r s' w' Hw. unfold __convert_array, ret, raise.
  destruct v; intros H; inversion H; subst; (split; [exact Hw |]);
    try discriminate.
  intros x Hx. inversion Hx. reflexivity.
Qed.

Lemma keeps_conseq {A} (m : M A) (P Q : A -> Prop) :
  keeps m P -> (forall a, P a -> Q a) -> keeps m Q.
Proof.
  intros Hm HPQ self w r s' w' Hw H. destruct (Hm _ _ _ _ _ Hw H) as [Hw' Ha].
  split; [exact Hw' |]. intros a Hr. apply HPQ, Ha, Hr.
Qed.

Lemma keeps_on_true {A} (h : Image) (m : M A) :
  keeps m (fun _ => True) -> keeps (on h m) (fun _ => True).
Proof. intros Hm. eapply keeps_true. apply keeps_on. exact Hm. Qed.

Lemma keeps_as_true {A} (m : M A) :
  keeps m (fun _ => True) -> keeps m (fun _ => True).
Proof. auto. Qed.

Ltac rk :=
  repeat match goal with
         | H : _ /\ _ |- _ => destruct H
         | H : exists _, _ |- _ => destruct H
         end;
  repeat match goal with
         | H : In _ _ -> _ |- _ =>
             first [ specialize (H ltac:(apply str_in_In; reflexivity)) | clear H ]
         end;
  subst; cbn [ranked] in *;
  first
    [ exact I | assumption | reflexivity
    | eapply rank_slice2; eassumption
    | eapply rank_take_axis0; eassumption
    | eapply rank_take_axis1; eassumption
    | eapply rank_zeros; eassumption
    | eapply rank_index; eassumption
    | match goal with
      | Hi : Py.index ?l _ = Done ?v |- ranked ?v = true =>
          eapply (ranked_item _ l _ v);
          [ eassumption | eassumption | eassumption | exact Hi ]
      end ].

Ltac kintro :=
  let H := fresh "H" in intros ? H; cbn beta in H.

Ltac kintro0 :=
  let H := fresh "H" in intros H; cbn beta in H.

Ltac kunfold :=
  progress
    (unfold run, void, or_, idx, item,
       blend, split, show, get_circle, crop_at_circle, adaptive_threshold,
       integral, kmeans, to_GRAY, tophat, blackhat, open, close, dilate, erode,
       to_8UC1, to_16UC1, BGR_to_LAB, LAB_to_BGR, BGR_to_HSV, HSV_to_BGR,
       deepcopy, channels, crop, crop2, channel, negate, blur, gaussian_blur,
       resize, full_resize, rotate90, rotate, equalize_hist, distance_transform,
       binarize, sharpen, morphology, gabor, edges, sobel, ring,
       get_corners, BGR_to_GRAY, to_BGR, to_depth, save,
       vertical_shift, horizontal_shift, resolve_mid, coordinate, middle_columns,
       __colorspace,
       py_max, py_min, ndarray_getattr, none_getattr, height, width, dim,
       algebric_open, algebric_dilate, algebric, warp, filter_objects,
       filter_border2border, line_strel, algebric_step, warp_step,
       filter_objects_step, filter_border2border_step).

Ltac ksolve_with ext :=
  cbn beta iota zeta;
  lazymatch goal with
  | |- keeps (bind _ _) _ =>
      eapply keeps_bind; [ kspec_with ext | kintro; ksolve_with ext ]
  | |- keeps (match ?x with _ => _ end) _ => destruct x eqn:?; ksolve_with ext
  | |- keeps _ _ =>
      eapply keeps_conseq; [ kspec_with ext | kintro; try solve [rk] ]
  end
with kspec_with ext :=
  cbn beta iota zeta;
  first
    [ apply keeps_ret | apply keeps_raise | apply keeps_native
    | apply keeps_check | apply keeps_lift
    | apply keeps_cv; exact Hlib | apply keeps_npx; exact Hlib
    | apply keeps_asin; exact Hlib | apply keeps_zeros
    | apply keeps_shape | apply keeps_cv_split; exact Hlib
    | apply keeps_load_image | apply keeps_convert_array
    | ext
    | apply keeps_self_ref | apply keeps_deref | apply keeps_self_data
    | apply keeps_self_array | apply keeps_as_array
    | apply keeps_set_data; try solve [rk]
    | apply keeps_alloc; try solve [rk]
    | apply keeps_write_data; try solve [rk]
    | apply keeps_path_exists | apply keeps_mkdir_parents
    | apply keeps_unpack | apply keeps_as_list
    | apply keeps_as_int | apply keeps_as_bool
    | apply keeps_on_true; ksolve_with ext
    | eapply (keeps_foldM _ (fun b : pyval => ranked b = true));
      [ intros ? ?; kintro0; ksolve_with ext | try solve [rk] ]
    | eapply (keeps_foldM _ (fun _ => True)); [ intros ? ? _; ksolve_with ext | exact I ]
    | eapply keeps_forM; [ first [eassumption | apply Forall_true; intros; exact I]
                         | kintro; ksolve_with ext ]
    | apply keeps_as_true;
      lazymatch goal with
      | |- keeps (bind _ _) _ => ksolve_with ext
      | |- keeps (match _ with _ => _ end) _ => ksolve_with ext
      | |- _ => kunfold; ksolve_with ext
      end ].

Lemma keeps_Image_init (input : ctor_input) :
  input_ranked input -> keeps (Image_init cv2 input) (fun _ => True).
Proof.
  intros Hin. unfold Image_init. destruct input as [l | v]; cbn [input_ranked] in Hin.
  all: ksolve_with fail.
Qed.

Ltac ksolve :=
  ksolve_with ltac:(apply keeps_Image_init; unfold input_ranked; try solve [rk]).

Lemma keeps_run (op : operation) : keeps (run cv2 numpy op) (fun _ => True).
Proof.
  destruct op; unfold run.
  all: ksolve.
Qed.

End Ranks.

Lemma ranked_dim (w : world) : images_ranked w -> dim_2_or_3 w.
Proof.
  intros Hw h a Hh. rewrite (dim_holds _ _ _ Hh).
  specialize (Hw _ _ Hh). cbn [ranked] in Hw. unfold rank_ok in Hw.
  apply orb_true_iff in Hw as [H | H]; apply Nat.eqb_eq in H; rewrite H;
    [left | right]; reflexivity.
Qed.

(** * The operations of the handle *)

Section Claims.

Variable cv2 : list event -> string -> list pyval -> option pyval.
Variable numpy : string -> list pyval -> option pyval.

(** C5. [crop(tl, br)] raises a [ValueError] exactly when [tl] has a
    negative coordinate, or [br[0]] exceeds the height or [br[1]] the width,
    or [tl] is not componentwise strictly below [br]; otherwise it raises
    nothing.  A rejected call leaves the handle and the world as they
    were. *)
Theorem crop_raises_iff (self : Image) (w : world) (a : ndarray)
    (h wd : nat) (rest : list nat) (t0 t1 b0 b1 : Z) (inplace : bool) :
  holds self w a ->
  arr_shape a = h :: wd :: rest ->
  let bad := (t0 < 0 \/ t1 < 0) \/
             (b0 > Z.of_nat h \/ b1 > Z.of_nat wd) \/
             ~ (t0 < b0 /\ t1 < b1) in
  (bad -> exists msg,
      crop cv2 [t0; t1] [b0; b1] inplace self w =
      (Err (Raised ValueError msg), self, w)) /\
  (~ bad -> exists r self' w',
      crop cv2 [t0; t1] [b0; b1] inplace self w = (Ok r, self', w')).
Proof.
  intros Hh Hs bad. subst bad.
  unfold crop, Image_init, __convert_array, height, width, shape, np.slice2.
  unfold_monad. unfold holds in Hh.
  change (Py.index [t0; t1] 0) with (Done t0).
  change (Py.index [t0; t1] 1) with (Done t1).
  change (Py.index [b0; b1] 0) with (Done b0).
  change (Py.index [b0; b1] 1) with (Done b1).
  split; intros Hbad;
    repeat (cbn beta iota; rewrite ?Hh, ?Hs, ?index_0, ?index_1; cbn [map];
            try case_if);
    zify_bools; try (exfalso; lia); eauto.
Qed.

(** C6. [blur(size, method)] raises a [ValueError] exactly when the method
    is not one of gauss, average, median, bilateral, or the size is below
    3, or the size is even.  Every odd size from 3 on with a recognized
    method passes the checks; in particular [blur(3)] does, whatever the
    message of the size check says. *)
Theorem blur_raises_iff (self : Image) (w : world) (size : Z) (method : string) :
  let bad := ~ In method blur_methods \/ size < 3 \/ size mod 2 = 0 in
  (bad <-> exists msg self' w',
      blur cv2 size method self w = (Err (Raised ValueError msg), self', w')) /\
  (bad -> exists msg,
      blur cv2 size method self w = (Err (Raised ValueError msg), self, w)) /\
  (~ bad -> forall c msg,
      (blur cv2 size method self w).1.1 <> Err (Raised c msg)) /\
  (forall c msg, (blur cv2 3 "gauss" self w).1.1 <> Err (Raised c msg)).
Proof.
  clear numpy.
  intros bad.
  assert (Hrej : bad -> exists msg,
             blur cv2 size method self w = (Err (Raised ValueError msg), self, w)).
  { subst bad. intros Hbad. unfold blur. unfold_monad.
    destruct (Py.str_in method _) eqn:Hm; simpl; [| eauto].
    destruct (size <? 3) eqn:Hs; simpl; [eauto |].
    destruct (size mod 2 =? 0) eqn:He; simpl; [eauto |].
    exfalso. apply str_in_In in Hm.
    destruct Hbad as [H | [H | H]]; [tauto | lia | lia]. }
  assert (Hacc : forall size' method',
             ~ (~ In method' blur_methods \/ size' < 3 \/ size' mod 2 = 0) ->
             forall c msg,
               (blur cv2 size' method' self w).1.1 <> Err (Raised c msg)).
  { intros size' method' Hok c msg. unfold blur, cv. unfold_monad.
    destruct (Py.str_in method' _) eqn:Hm.
    2:{ exfalso. apply Hok. left. rewrite <- str_in_In. unfold blur_methods.
        rewrite Hm. discriminate. }
    destruct (size' <? 3) eqn:Hs; [exfalso; apply Hok; lia |].
    destruct (size' mod 2 =? 0) eqn:He; [exfalso; apply Hok; lia |].
    clear Hm. split_cases; discriminate. }
  split; [| split; [exact Hrej | split; [apply Hacc |]]].
  - split.
    + intros Hbad. destruct (Hrej Hbad) as [msg Hm]. eauto.
    + intros (msg & self' & w' & Hr).
      assert (Hdec : bad \/ ~ bad).
      { subst bad.
        destruct (Py.str_in method blur_methods) eqn:Hm;
          [apply str_in_In in Hm
          | left; left; rewrite <- str_in_In, Hm; discriminate].
        destruct (Z_lt_dec size 3); [tauto |].
        destruct (Z.eq_dec (size mod 2) 0); tauto. }
      destruct Hdec as [Hb | Hok]; [exact Hb |].
      exfalso. apply (Hacc size method Hok ValueError msg). rewrite Hr. reflexivity.
  - apply Hacc. unfold blur_methods. cbn. intros [H | [H | H]]; [| lia | discriminate].
    apply H. left. reflexivity.
Qed.

(** C8. For corners with [0 <= tl < br] componentwise and [br] strictly
    inside the image, [crop(tl, br)] in place binds the handle to a new
    array of height [br[0] - tl[0] + 1] and width [br[1] - tl[1] + 1]: rows
    [tl[0]] to [br[0]] and columns [tl[1]] to [br[1]], both ends
    included. *)
Theorem crop_inclusive (self : Image) (w : world) (a : ndarray)
    (h wd : nat) (rest : list nat) (t0 t1 b0 b1 : Z) :
  holds self w a ->
  wf_array a = true ->
  arr_shape a = h :: wd :: rest ->
  0 <= t0 < b0 -> 0 <= t1 < b1 ->
  b0 < Z.of_nat h -> b1 < Z.of_nat wd ->
  exists a' self' w',
    crop cv2 [t0; t1] [b0; b1] true self w = (Ok None, self', w') /\
    holds self' w' a' /\
    wf_array a' = true /\
    arr_shape a' = Z.to_nat (b0 - t0 + 1) :: Z.to_nat (b1 - t1 + 1) :: rest /\
    arr_buf a' =
      Nd (map (fun row => Nd (take (Z.to_nat (b1 - t1 + 1))
                                   (drop (Z.to_nat t1) (nd_items row))))
              (take (Z.to_nat (b0 - t0 + 1))
                    (drop (Z.to_nat t0) (nd_items (arr_buf a))))).
Proof.
  intros Hh Hwf Hs Ht0 Ht1 Hb0 Hb1.
  destruct (np.slice2 (Some t0) (Some (b0 + 1)) (Some t1) (Some (b1 + 1)) a)
    as [a' | e what] eqn:Hsl.
  2:{ unfold np.slice2 in Hsl. rewrite Hs in Hsl. discriminate. }
  pose proof (slice2_wf _ _ _ _ _ _ Hwf Hsl) as Hwf'.
  exists a', (mk_Image (length (heap w))), (with_heap (heap w ++ [VArr a']) w).
  split; [| split; [| split; [exact Hwf' |]]].
  - unfold crop, height, width, shape.
    unfold_monad. unfold holds in Hh.
    change (Py.index [t0; t1] 0) with (Done t0).
    change (Py.index [t0; t1] 1) with (Done t1).
    change (Py.index [b0; b1] 0) with (Done b0).
    change (Py.index [b0; b1] 1) with (Done b1).
    repeat (cbn beta iota; rewrite ?Hh, ?Hs, ?index_0, ?index_1, ?Hsl; cbn [map];
            try case_if);
      zify_bools; try (exfalso; lia); reflexivity.
  - unfold holds. cbn. rewrite lookup_app_r by lia.
    rewrite Nat.sub_diag. reflexivity.
  - unfold wf_array in Hwf. rewrite Hs in Hwf.
    apply has_shape_cons in Hwf as (rows & Hbuf & Hlen & Hrows).
    unfold np.slice2 in Hsl. rewrite Hs in Hsl. inversion Hsl; subst a'; clear Hsl.
    cbn [arr_shape arr_buf]. rewrite Hbuf. cbn [nd_items].
    rewrite !slice_len_inside by lia.
    rewrite slice_inside by lia.
    replace (b0 + 1 - t0) with (b0 - t0 + 1) by lia.
    replace (b1 + 1 - t1) with (b1 - t1 + 1) by lia.
    split; [reflexivity |]. f_equal.
    apply map_ext_in. intros row Hin.
    assert (HF : Forall (fun row => has_shape (wd :: rest) row = true)
                   (take (Z.to_nat (b0 - t0 + 1)) (drop (Z.to_nat t0) rows)))
      by (apply Forall_take, Forall_drop; exact Hrows).
    rewrite List.Forall_forall in HF. apply HF in Hin.
    apply has_shape_cons in Hin as (cols & Hrow & Hclen & _). subst row.
    cbn [nd_items]. rewrite slice_inside by lia.
    replace (b1 + 1 - t1) with (b1 - t1 + 1) by lia. reflexivity.
Qed.

(** C3 (as the code behaves).  The radius check of [crop_at_circle] is
    inverted: with a centre of length 2 and a strictly positive radius the
    call takes the branch of the message "radius must be positive",
    whatever the ratio, and changes nothing. *)
Theorem crop_at_circle_rejects_positive_radius (self : Image) (w : world)
    (center : list Py.num) (radius : Py.num) (ratio : ratio_arg) :
  length center = 2%nat ->
  Py.gtb radius 0 = true ->
  crop_at_circle cv2 center radius ratio self w =
  (Err (Raised ValueError "radius must be positive"), self, w).
Proof.
  intros Hc Hr. unfold crop_at_circle. unfold_monad.
  rewrite Hc, Hr. reflexivity.
Qed.

Lemma zeros_run {B} (sh : list Z) (dtype : string) (k : ndarray -> M B)
    (self : Image) (w : world) :
  bind (zeros numpy sh dtype) k self w =
  match np.zeros sh dtype with
  | Done a =>
      match numpy "np.zeros" [VList (map VInt sh); VConst dtype] with
      | Some _ => k a self w
      | None =>
          (Err (Native MemoryError "Unable to allocate the array"), self, w)
      end
  | Fail c what => (Err (Native c what), self, w)
  end.
Proof.
  unfold zeros, bind, lift, ret, native.
  destruct (np.zeros sh dtype); [| reflexivity].
  destruct (numpy _ _); reflexivity.
Qed.

Lemma line_strel_odd (self : Image) (w : world) (size : Z) (angle : Py.num) :
  size mod 2 = 1 ->
  exists c what,
    line_strel cv2 numpy size angle self w = (Err (Native c what), self, w) /\
    (zeros_returns numpy [size; size] "float64" ->
     c = AttributeError /\ what = no_height).
Proof.
  intros Hodd. unfold line_strel, check. rewrite Hodd.
  change (negb (1 =? 1)) with false. cbn iota. rewrite run_ret, zeros_run.
  unfold zeros_returns.
  destruct (np.zeros [size; size] "float64") as [line | c what].
  - destruct (numpy "np.zeros" _) as [v |].
    + do 2 eexists. split; [reflexivity |]. intros _. split; reflexivity.
    + do 2 eexists. split; [reflexivity |]. intros [_ H]. contradiction.
  - do 2 eexists. split; [reflexivity |]. intros [[a H] _]. discriminate H.
Qed.

(** C4 (as the code behaves).  On a two-dimensional image, with an odd
    size and a positive step, [algebric_open] does not complete: it raises
    an exception of the interpreter or the library and the buffer stays as
    it was.  When [np.zeros] returns for the shape of the image and for
    (size, size), the exception is the [AttributeError] of [line_strel],
    which reads the attribute [height] of an array; arrays do not have
    it. *)
Theorem algebric_open_raises (self : Image) (w : world) (a : ndarray)
    (h wd : nat) (size step : Z) :
  holds self w a ->
  arr_shape a = [h; wd] ->
  size mod 2 = 1 ->
  0 < step ->
  exists c what,
    algebric_open cv2 numpy size step self w = (Err (Native c what), self, w) /\
    (zeros_returns numpy [Z.of_nat h; Z.of_nat wd] "uint8" ->
     zeros_returns numpy [size; size] "float64" ->
     c = AttributeError /\ what = no_height).
Proof.
  intros Hh Hs Hodd Hstep.
  destruct (range_positive_step 180 step ltac:(lia) Hstep) as [l Hl].
  destruct (line_strel_odd self w size (Py.NInt 0) Hodd) as (c & what & Hls & Hpos).
  unfold algebric_open, algebric.
  rewrite (run_bind _ _ _ _ _ _ _ (dim_holds _ _ _ Hh)), Hs.
  change (check (negb (Z.of_nat (length [h; wd]) =? 2)) ValueError
                "Only on 2D images") with (@ret unit tt).
  rewrite run_ret.
  rewrite (run_bind _ _ _ _ _ _ _ (shape_holds _ _ _ Hh)), Hs.
  cbn [map]. rewrite zeros_run. unfold zeros_returns.
  destruct (np.zeros [Z.of_nat h; Z.of_nat wd] "uint8") as [z | c0 what0].
  2:{ do 2 eexists. split; [reflexivity |]. intros [[z H] _]. discriminate H. }
  destruct (numpy "np.zeros" _) as [v |].
  2:{ do 2 eexists. split; [reflexivity |]. intros [_ H]. contradiction. }
  exists c, what. split; [| intros _; exact Hpos].
  rewrite run_lift, Hl. cbn [foldM]. unfold algebric_step at 1.
  rewrite (run_bind _ _ _ _ _ _ _
             (run_bind _ _ _ _ _ _ _ (run_bind _ _ _ _ _ _ _ Hls))).
  reflexivity.
Qed.


(** C9. Whatever its arguments and whatever the library answers, [show]
    leaves the handle bound to the same array object and that object as it
    was: the copy made by [deepcopy] shares the array, and [resize] binds
    the copy to a new array instead of writing into the shared one. *)
Theorem show_keeps_buffer (self : Image) (w : world) (label : string)
    (height width : Z) :
  (show cv2 label height width self w).1.2 = self /\
  heap_kept w (show cv2 label height width self w).2.
Proof.
  unfold heap_kept.
  unfold show, deepcopy, Image_init, __load_image, __convert_array, resize, shape, cv.
  unfold_monad.
  destruct (heap w !! data self) as [v |] eqn:Hv; [| split; [reflexivity | auto]].
  red_state.
  repeat (cbn beta iota; red_state; try case_match; simplify_eq);
    (split; [reflexivity | intros; repeat apply lookup_kept_app; assumption]).
Qed.

(** C2 (amended).  [Image(array)] binds the new handle to that very array,
    whatever its number of dimensions, and [shape], [dim], [height] and
    [width] are read from the buffer the handle currently holds.  When the
    library answers the calls whose result the package stores with arrays
    of two or three dimensions and every array held so far has two or
    three, the constructor on a path or on such an array and every public
    operation, whether it returns or raises, leave a store in which every
    array has two or three dimensions, so that every handle holding an
    array reports [dim] 2 or 3. *)
Theorem rank_follows_buffer :
  (forall self w a,
      Image_init cv2 (ByVal (VArr a)) self w =
        (Ok (mk_Image (length (heap w))), self,
         with_heap (heap w ++ [VArr a]) w)) /\
  (forall self w a,
      holds self w a ->
      Image_init cv2 (ByRef (data self)) self w = (Ok self, self, w) /\
      shape self w = (Ok (map Z.of_nat (arr_shape a)), self, w) /\
      dim self w = (Ok (Z.of_nat (length (arr_shape a))), self, w) /\
      height self w = lift (Py.index (map Z.of_nat (arr_shape a)) 0) self w /\
      width self w = lift (Py.index (map Z.of_nat (arr_shape a)) 1) self w) /\
  (library_ranked cv2 numpy ->
   forall self w s' w',
     images_ranked w ->
     (forall path (r : result Image),
         Image_init cv2 (ByVal (VStr path)) self w = (r, s', w') ->
         images_ranked w' /\ dim_2_or_3 w') /\
     (forall input (r : result Image),
         input_ranked input ->
         Image_init cv2 input self w = (r, s', w') ->
         images_ranked w' /\ dim_2_or_3 w') /\
     (forall op (r : result unit),
         run cv2 numpy op self w = (r, s', w') ->
         images_ranked w' /\ dim_2_or_3 w')).
Proof.
  split; [| split].
  - intros self w a. reflexivity.
  - intros self w a Hh.
    split; [| split; [apply shape_holds; exact Hh
                     | split; [apply dim_holds; exact Hh | split]]].
    + unfold Image_init, __convert_array. unfold_monad. unfold holds in Hh.
      rewrite Hh. destruct self. reflexivity.
    + unfold height, bind. rewrite (shape_holds _ _ _ Hh). reflexivity.
    + unfold width, bind. rewrite (shape_holds _ _ _ Hh). reflexivity.
  - intros Hlib self w s' w' Hw. split; [| split].
    + intros path r Hrun.
      destruct (keeps_Image_init cv2 numpy Hlib (ByVal (VStr path)) eq_refl
                  _ _ _ _ _ Hw Hrun) as [Hw' _].
      split; [exact Hw' | apply ranked_dim; exact Hw'].
    + intros input r Hin Hrun.
      destruct (keeps_Image_init cv2 numpy Hlib input Hin _ _ _ _ _ Hw Hrun) as [Hw' _].
      split; [exact Hw' | apply ranked_dim; exact Hw'].
    + intros op r Hrun.
      destruct (keeps_run cv2 numpy Hlib op _ _ _ _ _ Hw Hrun) as [Hw' _].
      split; [exact Hw' | apply ranked_dim; exact Hw'].
Qed.













End Claims.

(** * Concrete runs *)


(** C2, counterexample.  [Image(array)] on a one-dimensional array returns a
    handle whose [dim] is 1, neither 2 nor 3. *)
Lemma raw_vector_has_one_dimension :
  Image_init cv_none (ByRef 0%nat) handle0 (world_of vector_3) =
    (Ok handle0, handle0, world_of vector_3) /\
  dim handle0 (world_of vector_3) = (Ok 1, handle0, world_of vector_3) /\
  1 <> 2 /\ 1 <> 3.
Proof. repeat split; [vm_compute; reflexivity .. | lia | lia]. Qed.

Lemma cv_gray_ranked : library_ranked cv_gray np_allocates.
Proof.
  unfold library_ranked, cv_gray, np_allocates. repeat split.
  - intros _ fn _ v _. destruct (Py.str_in fn tuple_cv); intros H; inversion H.
    reflexivity.
  - intros _ fn _ a Hin. apply str_in_In in Hin. rewrite Hin. discriminate.
  - intros expr _ v _. destruct (String.eqb expr "np.zeros"); intros H; inversion H.
    reflexivity.
Qed.

Lemma demo_ranked : images_ranked (world_of demo_gray).
Proof.
  intros l v. destruct l as [| l]; cbn; intros H; inversion H. reflexivity.
Qed.

(** C2, a run: on a library that answers with 3 x 4 images, [rotate90]
    returns and the constructor on a path returns, and the handles of the
    store they leave report two or three dimensions. *)
Lemma rank_follows_buffer_witness :
  library_ranked cv_gray np_allocates /\
  images_ranked (world_of demo_gray) /\
  (run cv_gray np_allocates Op_rotate90 handle0 (world_of demo_gray)).1.1 = Ok tt /\
  dim_2_or_3 (run cv_gray np_allocates Op_rotate90 handle0 (world_of demo_gray)).2 /\
  (Image_init cv_gray (ByVal (VStr "a.png")) handle0
     (mk_world [] ["a.png"] [] [])).1.1 = Ok handle0 /\
  dim_2_or_3 (Image_init cv_gray (ByVal (VStr "a.png")) handle0
                (mk_world [] ["a.png"] [] [])).2.
Proof.
  split; [exact cv_gray_ranked | split; [exact demo_ranked |]].
  split; [reflexivity | split; [| split; [reflexivity |]]].
  - destruct (run cv_gray np_allocates Op_rotate90 handle0 (world_of demo_gray))
      as [[r s'] w'] eqn:E.
    exact (proj2 (proj2 (proj2 (proj2 (proj2 (rank_follows_buffer cv_gray np_allocates))
             cv_gray_ranked handle0 (world_of demo_gray) s' w' demo_ranked))
             Op_rotate90 r E)).
  - destruct (Image_init cv_gray (ByVal (VStr "a.png")) handle0
                (mk_world [] ["a.png"] [] [])) as [[r s'] w'] eqn:E.
    refine (proj2 (proj1 (proj2 (proj2 (rank_follows_buffer cv_gray np_allocates))
             cv_gray_ranked handle0 (mk_world [] ["a.png"] [] []) s' w' _)
             "a.png" r E)).
    intros l v H. destruct l; inversion H.
Defined.

(** C3, the failing call: centre (10.0, 10.0), radius 5.0, ratio 1. *)
Lemma crop_at_circle_rejects_positive_radius_witness :
  crop_at_circle cv_none [Py.NFloat 10; Py.NFloat 10] (Py.NFloat 5)
                 (RatioNum (Py.NInt 1)) handle0 (world_of demo_gray) =
  (Err (Raised ValueError "radius must be positive"), handle0, world_of demo_gray).
Proof.
  apply (crop_at_circle_rejects_positive_radius cv_none handle0 (world_of demo_gray)
           [Py.NFloat 10; Py.NFloat 10] (Py.NFloat 5) (RatioNum (Py.NInt 1)));
    reflexivity.
Defined.

(** C4, the failing call: [algebric_open(size=5, step=5)] on a 3 x 4 image,
    on a host where [np.zeros] finds its memory. *)
Lemma algebric_open_raises_witness :
  algebric_open cv_echo np_allocates 5 5 handle0 (world_of demo_gray) =
  (Err (Native AttributeError no_height), handle0, world_of demo_gray).
Proof.
  destruct (algebric_open_raises cv_echo np_allocates handle0 (world_of demo_gray)
              demo_gray 3 4 5 5 eq_refl eq_refl eq_refl eq_refl)
    as (c & what & Hrun & Hc).
  destruct Hc as [Hc Hwhat].
  - split; [eexists; reflexivity | discriminate].
  - split; [eexists; reflexivity | discriminate].
  - rewrite Hc, Hwhat in Hrun. exact Hrun.
Defined.

Lemma crop_raises_iff_witness :
  exists msg,
    crop cv_none [2; 0] [1; 3] true handle0 (world_of demo_gray) =
    (Err (Raised ValueError msg), handle0, world_of demo_gray).
Proof.
  apply (proj1 (crop_raises_iff cv_none handle0 (world_of demo_gray) demo_gray
                  3 4 [] 2 0 1 3 true eq_refl eq_refl)).
  right. right. lia.
Defined.



Lemma crop_inclusive_witness :
  exists a' self' w',
    crop cv_none [0; 1] [1; 2] true handle0 (world_of demo_gray) = (Ok None, self', w') /\
    holds self' w' a' /\
    wf_array a' = true /\
    arr_shape a' = [2%nat; 2%nat] /\
    arr_buf a' = Nd [Nd [Item 2; Item 3]; Nd [Item 6; Item 7]].
Proof.
  apply (crop_inclusive cv_none handle0 (world_of demo_gray) demo_gray 3 4 [] 0 1 1 2);
    first [reflexivity | simpl; lia].
Defined.

(** C10, counterexample.  On the one-row image [1 2 3], a shift by
    [2^63 - 1] followed by the opposite shift leaves [3 2 2]: the sum of the
    64-bit column index and the offset wraps around. *)
Lemma vertical_shift_wraps_around :
  ((vertical_shift (2 ^ 63 - 1) ;;
    vertical_shift (- (2 ^ 63 - 1)) ;;
    self_data)%py handle0 (world_of row_123)).1.1 = Ok (VArr row_322) /\
  row_322 <> row_123.
Proof. split; [vm_compute; reflexivity | discriminate]. Qed.

Lemma vertical_shift_round_trip_witness :
  exists self1 w1 self2 w2,
    vertical_shift 1 handle0 (world_of demo_gray) = (Ok tt, self1, w1) /\
    holds self1 w1 (rotate_columns 1 demo_gray) /\
    vertical_shift (- 1) self1 w1 = (Ok tt, self2, w2) /\
    holds self2 w2 demo_gray /\
    (2 * Z.of_nat 4 < 2 ^ 63 ->
     exists self3 w3,
       vertical_shift (Z.of_nat 4) handle0 (world_of demo_gray) = (Ok tt, self3, w3) /\
       holds self3 w3 demo_gray).
Proof.
  apply (vertical_shift_round_trip handle0 (world_of demo_gray) demo_gray
           3 4 [] 1);
    [reflexivity | reflexivity | reflexivity | simpl; lia | simpl; lia].
Defined.
